(** * Tokeniko: the in-memory query engine [DataService] and the order number

    A shallow embedding of [DataService] (add, findById, findAll, findBy,
    search, applyFilter, count, clear) and of
    [OrderClass.generateOrderNumber], with the properties of the
    specification stated over it.

    Modelling decisions.
    - Entities are JavaScript objects: they live in a store and are named by
      references; the engine's array and every array it returns hold
      references, so that sharing between the engine and its callers is
      visible.
    - A property value is [undefined], [null], a boolean, a number, a string
      or a [Date] (a reference and a time value).  Other objects, symbols and
      bigints are outside the model.
    - Numbers are the integers together with NaN and the two infinities;
      arithmetic on them is exact and the two zeros are not told apart.
      [page] and [limit] are integers.
    - [String.prototype.toLowerCase], [toUpperCase] and the string-to-number
      conversion of the relational operators belong to the JavaScript
      runtime: the engine is stated over any runtime ([JSRuntime]); the ASCII
      runtime is the instance used to evaluate examples. *)

From Stdlib Require Import ZArith String Ascii List Lia Permutation.
From Stdlib Require Import DecimalString.
From stdpp Require Import gmap strings list fin_maps sorting.

Local Open Scope Z_scope.

(** ** References *)

Abbreviation loc := positive.

(** ** Numbers *)

Inductive number : Type :=
| NaN
| NegInf
| Fin (z : Z)
| PosInf.

(** [a < b] on numbers: false as soon as one side is NaN. *)
Definition number_lt (a b : number) : bool :=
  match a, b with
  | NaN, _ | _, NaN => false
  | _, NegInf => false
  | NegInf, _ => true
  | PosInf, _ => false
  | Fin _, PosInf => true
  | Fin x, Fin y => x <? y
  end.

(** [a === b] on numbers: NaN differs from itself. *)
Definition number_eq (a b : number) : bool :=
  match a, b with
  | NegInf, NegInf | PosInf, PosInf => true
  | Fin x, Fin y => x =? y
  | _, _ => false
  end.

(** [Math.ceil(a / b)] for integer operands.  A zero divisor gives an
    infinity, or NaN for [0 / 0]. *)
Definition Math_ceil_div (a b : Z) : number :=
  if b =? 0 then
    if 0 <? a then PosInf else if a <? 0 then NegInf else NaN
  else Fin (- ((- a) / b)).

(** ** Strings *)

(** [s.startsWith(p)] *)
Fixpoint startsWith (s p : string) {struct p} : bool :=
  match p with
  | EmptyString => true
  | String c p' =>
      match s with
      | EmptyString => false
      | String d s' => Ascii.eqb d c && startsWith s' p'
      end
  end.

(** [s.includes(q)]: [q] occurs at some position of [s]. *)
Fixpoint includes (s q : string) : bool :=
  startsWith s q ||
  match s with
  | EmptyString => false
  | String _ s' => includes s' q
  end.

(** [s.endsWith(p)]: the last [length p] characters of [s] are [p]. *)
Definition endsWith (s p : string) : bool :=
  let n := String.length s in
  let m := String.length p in
  (m <=? n)%nat && String.eqb (substring (n - m) m s) p.

(** ** The JavaScript runtime *)

Class JSRuntime : Type := {
  toLowerCase : string -> string;
  toUpperCase : string -> string;
  (** [Number(s)], the conversion applied by [<] and [>] to a string operand
      when the other operand is not a string *)
  StringToNumber : string -> number;
  toLowerCase_empty : toLowerCase "" = ""
}.

(** ** Values and objects *)

Inductive JSValue : Type :=
| VUndefined
| VNull
| VBoolean (b : bool)
| VNumber (n : number)
| VString (s : string)
| VDate (ref : loc) (time : number).



(** [a === b]: no conversion; objects are compared by reference. *)
Definition strictEquals (a b : JSValue) : bool :=
  match a, b with
  | VUndefined, VUndefined => true
  | VNull, VNull => true
  | VBoolean x, VBoolean y => Bool.eqb x y
  | VNumber x, VNumber y => number_eq x y
  | VString x, VString y => String.eqb x y
  | VDate r _, VDate r' _ => Pos.eqb r r'
  | _, _ => false
  end.

Section Runtime.
Context `{JSRuntime}.

(** [ToNumber] after [ToPrimitive] with hint number (a date gives its time
    value). *)
Definition ToNumber (v : JSValue) : number :=
  match v with
  | VUndefined => NaN
  | VNull => Fin 0
  | VBoolean b => Fin (if b then 1 else 0)
  | VNumber n => n
  | VString s => StringToNumber s
  | VDate _ t => t
  end.

(** [a < b]: two strings are compared character by character, anything else
    as numbers. *)
Definition lessThan (a b : JSValue) : bool :=
  match a, b with
  | VString x, VString y => String.ltb x y
  | _, _ => number_lt (ToNumber a) (ToNumber b)
  end.

(** [a > b] *)
Definition greaterThan (a b : JSValue) : bool := lessThan b a.

End Runtime.

(** ** The store *)

Record State : Type := {
  (** the entity objects: own enumerable properties by name *)
  objects : gmap loc (gmap string JSValue);
  (** the array objects: their elements *)
  arrays : gmap loc (list loc);
  (** [this.data], a reference to an array *)
  this_data : loc
}.

(** [item[field]]: an absent property reads as [undefined]. *)
Definition getField (σ : State) (item : loc) (field : string) : JSValue :=
  match objects σ !! item with
  | Some o => default VUndefined (o !! field)
  | None => VUndefined
  end.

(** [Object.values(item)] *)
Definition Object_values (σ : State) (item : loc) : list JSValue :=
  match objects σ !! item with
  | Some o => (map_to_list o).*2
  | None => []
  end.

(** The elements of the array at [r]. *)
Definition elements_of (σ : State) (r : loc) : list loc :=
  default [] (arrays σ !! r).

(** The elements of [this.data]. *)
Definition stored (σ : State) : list loc := elements_of σ (this_data σ).

(** A new array with the given elements. *)
Definition alloc_array (l : list loc) (σ : State) : loc * State :=
  let r := fresh (dom (arrays σ)) in
  (r, {| objects := objects σ; arrays := <[r := l]> (arrays σ);
       this_data := this_data σ |}).

(** [arr.slice(start, end)]: a negative index counts from the end. *)
Definition slice {A} (start final : Z) (l : list A) : list A :=
  let len := Z.of_nat (length l) in
  let k := if start <? 0 then Z.max (len + start) 0 else Z.min start len in
  let e := if final <? 0 then Z.max (len + final) 0 else Z.min final len in
  take (Z.to_nat (e - k)) (drop (Z.to_nat k) l).

(** [arr.sort(compareFn)].  The sort is stable; [compareFn a b > 0] means
    that [a] goes after [b].  For a consistent comparator every stable sort
    gives the same array ([stable_sorted_unique] below); the model is the
    insertion sort. *)
Section Sort.
Context {A : Type} (compareFn : A -> A -> Z).

Fixpoint sort_insert (x : A) (l : list A) : list A :=
  match l with
  | [] => [x]
  | y :: l' => if 0 <? compareFn x y then y :: sort_insert x l' else x :: l
  end.

Definition Array_sort (l : list A) : list A := foldr sort_insert [] l.

End Sort.

(** ** Types of the query engine *)

(** [FilterOperator] is a string enumeration: at run time an operator is
    a string. *)
Definition EQUALS : string := "EQUALS".
Definition CONTAINS : string := "CONTAINS".
Definition STARTS_WITH : string := "STARTS_WITH".
Definition ENDS_WITH : string := "ENDS_WITH".
Definition GREATER_THAN : string := "GREATER_THAN".
Definition LESS_THAN : string := "LESS_THAN".

Record FilterCriteria : Type := {
  field : string;
  value : JSValue;
  operator : string
}.

Inductive SortOrder : Type := ASC | DESC.

Record SearchParameters : Type := {
  query : option string;
  filters : option (list FilterCriteria);
  sortBy : option string;
  sortOrder : option SortOrder;
  page : option Z;
  limit : option Z
}.

Record PaginationMeta : Type := {
  currentPage : Z;
  totalPages : number;
  totalItems : Z;
  itemsPerPage : Z;
  hasNextPage : bool;
  hasPreviousPage : bool
}.

(** [PaginatedResponse<T>]; [data] is a reference to the returned array. *)
Record PaginatedResponse : Type := {
  success : bool;
  data : option loc;
  error : option string;
  message : option string;
  meta : option PaginationMeta
}.


(** ** DataService *)

(** [new DataService()]: the field [data] is initialised with a new empty
    array; [objs] are the entity objects of the program. *)
Definition new_DataService (objs : gmap loc (gmap string JSValue)) : State :=
  {| objects := objs; arrays := {[ 1%positive := [] ]}; this_data := 1%positive |}.

(** [add(item)]: [this.data.push(item)] *)
Definition add (item : loc) (σ : State) : State :=
  {| objects := objects σ;
     arrays := <[this_data σ := stored σ ++ [item]]> (arrays σ);
     this_data := this_data σ |}.

(** [findById(id)]: [this.data.find((item) => item.id === id)] *)
Definition findById (id : string) (σ : State) : option loc :=
  List.find (fun item => strictEquals (getField σ item "id") (VString id))
    (stored σ).

(** [findAll()]: [[...this.data]] *)
Definition findAll (σ : State) : loc * State :=
  alloc_array (stored σ) σ.

(** [findBy(field, value)]:
    [this.data.filter((item) => item[field] === value)] *)
Definition findBy (fld : string) (v : JSValue) (σ : State) : loc * State :=
  alloc_array
    (List.filter (fun item => strictEquals (getField σ item fld) v) (stored σ))
    σ.

(** [count()] *)
Definition count (σ : State) : Z := Z.of_nat (length (stored σ)).

(** [clear()]: [this.data = []], a new array *)
Definition clear (σ : State) : State :=
  let r := fresh (dom (arrays σ)) in
  {| objects := objects σ; arrays := <[r := []]> (arrays σ); this_data := r |}.

Section Engine.
Context `{JSRuntime}.

(** [applyFilter(item, filter)] *)
Definition applyFilter (σ : State) (item : loc) (filter : FilterCriteria) : bool :=
  let itemValue := getField σ item (field filter) in
  let filterValue := value filter in
  if String.eqb (operator filter) EQUALS then
    strictEquals itemValue filterValue
  else if String.eqb (operator filter) CONTAINS then
    match itemValue, filterValue with
    | VString a, VString b => includes (toLowerCase a) (toLowerCase b)
    | _, _ => false
    end
  else if String.eqb (operator filter) STARTS_WITH then
    match itemValue, filterValue with
    | VString a, VString b => startsWith (toLowerCase a) (toLowerCase b)
    | _, _ => false
    end
  else if String.eqb (operator filter) ENDS_WITH then
    match itemValue, filterValue with
    | VString a, VString b => endsWith (toLowerCase a) (toLowerCase b)
    | _, _ => false
    end
  else if String.eqb (operator filter) GREATER_THAN then
    greaterThan itemValue filterValue
  else if String.eqb (operator filter) LESS_THAN then
    lessThan itemValue filterValue
  else false.

(** The callback of the free-text filter; [query] is already lowered. *)
Definition matchesQuery (σ : State) (query : string) (item : loc) : bool :=
  existsb
    (fun v => match v with
              | VString s => includes (toLowerCase s) query
              | _ => false
              end)
    (Object_values σ item).

(** The comparator handed to [sort]. *)
Definition compareFn (σ : State) (sortBy : string) (sortOrder : option SortOrder)
    (a b : loc) : Z :=
  let aValue := getField σ a sortBy in
  let bValue := getField σ b sortBy in
  let desc := match sortOrder with Some DESC => true | _ => false end in
  if lessThan aValue bValue then (if desc then 1 else -1)
  else if greaterThan aValue bValue then (if desc then -1 else 1)
  else 0.

(** [filteredData] after the free-text filter: an empty query is falsy and
    skips the step. *)
Definition afterQuery (σ : State) (params : SearchParameters) : list loc :=
  match query params with
  | Some q =>
      if String.eqb q "" then stored σ
      else List.filter (matchesQuery σ (toLowerCase q)) (stored σ)
  | None => stored σ
  end.

(** [filteredData] after the structured filters. *)
Definition afterFilters (σ : State) (params : SearchParameters) : list loc :=
  match filters params with
  | Some fs =>
      if (0 <? length fs)%nat then
        List.filter (fun item => forallb (applyFilter σ item) fs)
          (afterQuery σ params)
      else afterQuery σ params
  | None => afterQuery σ params
  end.

(** [filteredData] after the sort: an empty field name is falsy and skips
    the step. *)
Definition filteredData (σ : State) (params : SearchParameters) : list loc :=
  match sortBy params with
  | Some f =>
      if String.eqb f "" then afterFilters σ params
      else Array_sort (compareFn σ f (sortOrder params)) (afterFilters σ params)
  | None => afterFilters σ params
  end.

(** [search(params)] *)
Definition search (params : SearchParameters) (σ : State)
    : PaginatedResponse * State :=
  let filteredData := filteredData σ params in
  let page := default 1 (page params) in
  let limit := default 10 (limit params) in
  let startIndex := (page - 1) * limit in
  let endIndex := startIndex + limit in
  let paginatedData := slice startIndex endIndex filteredData in
  let totalItems := Z.of_nat (length filteredData) in
  let totalPages := Math_ceil_div totalItems limit in
  let meta :=
    {| currentPage := page;
       totalPages := totalPages;
       totalItems := totalItems;
       itemsPerPage := limit;
       hasNextPage := number_lt (Fin page) totalPages;
       hasPreviousPage := 1 <? page |} in
  let '(r, σ') := alloc_array paginatedData σ in
  ({| success := true; data := Some r; error := None; message := None;
      meta := Some meta |}, σ').

(** The elements of the array returned by [search]. *)
Definition search_data (params : SearchParameters) (σ : State) : list loc :=
  let '(resp, σ') := search params σ in
  match data resp with
  | Some r => elements_of σ' r
  | None => []
  end.

(** The metadata returned by [search]. *)
Definition search_meta (params : SearchParameters) (σ : State)
    : option PaginationMeta :=
  meta (fst (search params σ)).

End Engine.

(** ** Sequences of calls *)

Inductive Call : Type :=
| Add (item : loc)
| FindById (id : string)
| FindAll
| FindBy (fld : string) (v : JSValue)
| Search (params : SearchParameters)
| Count
| Clear.

Section Calls.
Context `{JSRuntime}.

(** The state after one call (the returned value is dropped). *)
Definition invoke (c : Call) (σ : State) : State :=
  match c with
  | Add item => add item σ
  | FindById _ => σ
  | FindAll => snd (findAll σ)
  | FindBy fld v => snd (findBy fld v σ)
  | Search params => snd (search params σ)
  | Count => σ
  | Clear => clear σ
  end.

Definition run (cs : list Call) (σ : State) : State :=
  foldl (fun s c => invoke c s) σ cs.

End Calls.

(** The number of [add] calls since the last [clear] of a sequence that
    starts with [n] stored entities. *)
Definition adds_since_clear (n : Z) (cs : list Call) : Z :=
  foldl (fun k c => match c with Add _ => k + 1 | Clear => 0 | _ => k end) n cs.

(** ** What a caller can do with a returned array *)

(** Any update of the elements of the array at [r]: [arr[i] = x], [push],
    [pop], [splice], [reverse], [sort], [length = n]. *)
Definition update_elements (r : loc) (f : list loc -> list loc) (σ : State)
    : State :=
  {| objects := objects σ; arrays := alter f r (arrays σ);
     this_data := this_data σ |}.

(** [item[key] = v] on an entity object. *)
Definition set_property (item : loc) (key : string) (v : JSValue) (σ : State)
    : State :=
  {| objects := alter (fun o => <[key := v]> o) item (objects σ);
     arrays := arrays σ; this_data := this_data σ |}.

(** The field [data] refers to an array of the store. *)
Definition well_formed (σ : State) : Prop :=
  is_Some (arrays σ !! this_data σ).

(** ** The order number *)

(** [str.slice(start)] *)
Definition String_slice (start : Z) (s : string) : string :=
  let len := Z.of_nat (String.length s) in
  let k := if start <? 0 then Z.max (len + start) 0 else Z.min start len in
  substring (Z.to_nat k) (Z.to_nat (len - k)) s.

(** [str.substring(start, end)] for [start <= end] *)
Definition String_substring (start final : nat) (s : string) : string :=
  substring start (final - start) s.

(** [n.toString()] for an integer *)
Definition Number_toString (n : Z) : string :=
  NilZero.string_of_int (Z.to_int n).

Section OrderNumber.
Context `{JSRuntime}.

(** [generateOrderNumber()]; [now] is the value of [Date.now()] and
    [random36] the string [Math.random().toString(36)]. *)
Definition generateOrderNumber (now : Z) (random36 : string) : string :=
  let prefix := "ORD" in
  let timestamp := String_slice (-8) (Number_toString now) in
  let random := toUpperCase (String_substring 2 6 random36) in
  prefix +:+ "-" +:+ timestamp +:+ "-" +:+ random.

End OrderNumber.

Definition is_digit (c : ascii) : bool :=
  let n := nat_of_ascii c in (48 <=? n)%nat && (n <=? 57)%nat.

Definition is_upper (c : ascii) : bool :=
  let n := nat_of_ascii c in (65 <=? n)%nat && (n <=? 90)%nat.

Definition is_lower (c : ascii) : bool :=
  let n := nat_of_ascii c in (97 <=? n)%nat && (n <=? 122)%nat.

(** The format [ORD-########-XXXX]: eight decimal digits, four uppercase
    letters or digits. *)
Definition order_number_format (s : string) : bool :=
  (String.length s =? 17)%nat
  && String.eqb (substring 0 4 s) "ORD-"
  && forallb is_digit (list_ascii_of_string (substring 4 8 s))
  && String.eqb (substring 12 1 s) "-"
  && forallb (fun c => is_digit c || is_upper c)
       (list_ascii_of_string (substring 13 4 s)).

(** ** The ASCII runtime *)

Fixpoint String_map (f : ascii -> ascii) (s : string) : string :=
  match s with
  | EmptyString => EmptyString
  | String c s' => String (f c) (String_map f s')
  end.

Definition ascii_toLower (c : ascii) : ascii :=
  if is_upper c then ascii_of_nat (nat_of_ascii c + 32) else c.

Definition ascii_toUpper (c : ascii) : ascii :=
  if is_lower c then ascii_of_nat (nat_of_ascii c - 32) else c.

(** Decimal integer literals: the empty string is 0, anything that is not a
    sequence of digits is NaN. *)
Definition decimal_StringToNumber (s : string) : number :=
  if forallb is_digit (list_ascii_of_string s) then
    Fin (fold_left (fun acc c => 10 * acc + Z.of_nat (nat_of_ascii c - 48))
           (list_ascii_of_string s) 0)
  else NaN.

Definition ascii_runtime : JSRuntime := {|
  toLowerCase := String_map ascii_toLower;
  toUpperCase := String_map ascii_toUpper;
  StringToNumber := decimal_StringToNumber;
  toLowerCase_empty := eq_refl
|}.

(** ** The candidate set, as the specification words it *)

Section Candidates.
Context `{JSRuntime}.

(** An entity is a candidate when it passes the free-text query, if there is
    one, and every structured filter. *)
Definition is_candidate (σ : State) (params : SearchParameters) (item : loc)
    : bool :=
  match query params with
  | Some q => String.eqb q "" || matchesQuery σ (toLowerCase q) item
  | None => true
  end
  && match filters params with
     | Some fs => forallb (applyFilter σ item) fs
     | None => true
     end.

End Candidates.

(** ** A sample collection *)

Definition order (id buyerName status : string) : gmap string JSValue :=
  {[ "id" := VString id; "buyerName" := VString buyerName;
     "status" := VString status ]}.

(** Three orders; the first and the third carry an extra property. *)
Definition order_1 : gmap string JSValue :=
  <["amount" := VNumber (Fin 2)]> (order "o-1" "Alice" "PENDING").
Definition order_2 : gmap string JSValue :=
  order "o-2" "bob" "DELIVERED".
Definition order_3 : gmap string JSValue :=
  <["amount" := VNumber (Fin 1)]> (order "o-3" "Alicia" "SHIPPED").

Definition sample_objects : gmap loc (gmap string JSValue) :=
  {[ 1%positive := order_1; 2%positive := order_2; 3%positive := order_3 ]}.

(** The collection after [add] of the three orders. *)
Definition sample_state : State :=
  add 3 (add 2 (add 1 (new_DataService sample_objects))).

Definition page_request (pg lim : Z) : SearchParameters :=
  {| query := None; filters := None; sortBy := None; sortOrder := None;
     page := Some pg; limit := Some lim |}.

(** ** The order of the sort, as the specification words it *)

Section SortOrder.
Context `{JSRuntime}.



(** The values of the field order the entities of [l] consistently: an
    entity that ties with two others does not lie between them. *)
Definition keys_comparable (σ : State) (sortBy : string) (l : list loc) : Prop :=
  forall a b c, a ∈ l -> b ∈ l -> c ∈ l ->
    lessThan (getField σ a sortBy) (getField σ c sortBy) = true ->
    lessThan (getField σ a sortBy) (getField σ b sortBy) = true \/
    lessThan (getField σ b sortBy) (getField σ c sortBy) = true.

End SortOrder.


(** Every entity of [l] has null, a boolean, a number other than NaN or a
    valid date in the field. *)
Definition all_numeric_keys (σ : State) (sortBy : string) (l : list loc) : bool :=
  forallb (fun a => match getField σ a sortBy with
                    | VNull | VBoolean _ => true
                    | VNumber n | VDate _ n =>
                        match n with NaN => false | _ => true end
                    | _ => false
                    end) l.

Definition sort_request (f : string) (ord : option SortOrder)
    : SearchParameters :=
  {| query := None; filters := None; sortBy := Some f; sortOrder := ord;
     page := None; limit := None |}.

Definition query_request (q : string) : SearchParameters :=
  {| query := Some q; filters := None; sortBy := None; sortOrder := None;
     page := None; limit := None |}.


(** ** The engine as the dashboard uses it *)

(** The same request with other filters. *)
Definition with_filters (fs : list FilterCriteria) (params : SearchParameters)
    : SearchParameters :=
  {| query := query params; filters := Some fs;
     sortBy := sortBy params; sortOrder := sortOrder params;
     page := page params; limit := limit params |}.

(** [loadInitialData], the part on the engine:
    [orderService.clear(); orders.forEach((order) => orderService.add(order))] *)
Definition loadOrders (orders : list loc) (σ : State) : State :=
  foldl (fun s order => add order s) (clear σ) orders.

(** The array at [r], which is not [this.data], holds [l]. *)
Definition snapshot_at (r : loc) (l : list loc) (σ : State) : Prop :=
  arrays σ !! r = Some l /\ r <> this_data σ /\ well_formed σ.

(** ** The dashboard's order search *)

Module Dashboard.

(** [Partial<OrderSearchFormData>]: the values of the search form. *)
Record OrderSearchFormData : Type := {
  query : option string;
  status : option string;
  buyerName : option string;
  orderNumber : option string;
  dateFrom : option string;
  dateTo : option string;
  sortBy : option string;
  sortOrder : option SortOrder;
  page : option Z;
  limit : option Z
}.

(** A string that is present and not empty is truthy. *)
Definition truthy_string (o : option string) : option string :=
  match o with
  | Some s => if String.eqb s "" then None else Some s
  | None => None
  end.

(** A number that is present and not 0 is truthy. *)
Definition truthy_number (o : option Z) : option Z :=
  match o with
  | Some n => if n =? 0 then None else Some n
  | None => None
  end.

(** The filters that [searchOrders] pushes, in order. *)
Definition filters_of (searchParams : OrderSearchFormData)
    : list FilterCriteria :=
  let filters := [] in
  let filters :=
    match truthy_string (status searchParams) with
    | Some s =>
        filters ++ [ {| field := "status"; value := VString s;
                        operator := EQUALS |} ]
    | None => filters
    end in
  let filters :=
    match truthy_string (buyerName searchParams) with
    | Some s =>
        filters ++ [ {| field := "buyerName"; value := VString s;
                        operator := CONTAINS |} ]
    | None => filters
    end in
  match truthy_string (orderNumber searchParams) with
  | Some s =>
      filters ++ [ {| field := "orderNumber"; value := VString s;
                      operator := CONTAINS |} ]
  | None => filters
  end.

(** The [searchParameters] object of [searchOrders]. *)
Definition searchParameters (searchParams : OrderSearchFormData)
    : SearchParameters :=
  Build_SearchParameters
    (truthy_string (query searchParams))
    (Some (filters_of searchParams))
    (Some (default "orderDate" (truthy_string (sortBy searchParams))))
    (Some (default DESC (sortOrder searchParams)))
    (Some (default 1 (truthy_number (page searchParams))))
    (Some (default 10 (truthy_number (limit searchParams)))).

Record OrderSearchState : Type := {
  orders : list loc;
  loading : bool;
  error : option string;
  totalCount : Z;
  currentPage : Z
}.

Section SearchOrders.
Context `{JSRuntime}.

(** [searchOrders(searchParams)]: the state set after the search, with the
    elements of the returned array as [orders]. *)
Definition searchOrders (searchParams : OrderSearchFormData) (σ : State)
    : OrderSearchState * State :=
  let '(result, σ') := search (searchParameters searchParams) σ in
  ({| orders :=
        match data result with
        | Some r => elements_of σ' r
        | None => []
        end;
      loading := false;
      error := None;
      totalCount :=
        match meta result with
        | Some (Build_PaginationMeta _ _ n _ _ _) => if n =? 0 then 0 else n
        | None => 0
        end;
      currentPage :=
        match meta result with
        | Some (Build_PaginationMeta pg _ _ _ _ _) => if pg =? 0 then 1 else pg
        | None => 1
        end |}, σ').

End SearchOrders.

End Dashboard.

(** ** The mock API and the login form *)

Module ApiResponse.

(** [ApiResponse<T>] *)
Record ApiResponse (T : Type) : Type := {
  success : bool;
  data : option T;
  error : option string;
  message : option string
}.
Arguments success {T}.
Arguments data {T}.
Arguments error {T}.
Arguments message {T}.
Arguments Build_ApiResponse {T}.

(** [{ success: false, error }] *)
Definition failure {T : Type} (msg : string) : ApiResponse T :=
  Build_ApiResponse false None (Some msg) None.

(** [{ success: true, data, message }] *)
Definition ok {T : Type} (d : T) (msg : string) : ApiResponse T :=
  Build_ApiResponse true (Some d) None (Some msg).

End ApiResponse.

Module User.

(** [User], as the fixture holds it; the two timestamps are time values. *)
Record User : Type := {
  id : string;
  createdAt : number;
  updatedAt : number;
  firstName : string;
  lastName : string;
  email : string;
  mobileNumber : string;
  address : string;
  fullName : string
}.

End User.

Module AuthUser.

Record AuthUser : Type := {
  id : string;
  email : string;
  fullName : string;
  mobileNumber : string
}.

End AuthUser.

Module LoginRecord.

(** [LoginRecord]; the three dates are time values (NaN for an invalid
    date). *)
Record LoginRecord : Type := {
  id : string;
  createdAt : number;
  updatedAt : number;
  userId : string;
  activityType : string;
  timestamp : number;
  ipAddress : option string;
  userAgent : option string
}.

End LoginRecord.

(** [a - b] on numbers *)
Definition number_sub (a b : number) : number :=
  match a, b with
  | NaN, _ | _, NaN => NaN
  | Fin x, Fin y => Fin (x - y)
  | PosInf, PosInf | NegInf, NegInf => NaN
  | PosInf, _ | _, NegInf => PosInf
  | NegInf, _ | _, PosInf => NegInf
  end.

(** What [sort] makes of the number a comparator returns: NaN counts as 0,
    otherwise the sign decides. *)
Definition comparator_result (v : number) : Z :=
  match v with
  | NaN => 0
  | NegInf => -1
  | Fin z => z
  | PosInf => 1
  end.

Module ApiService.
Import ApiResponse.

(** The functions below start with [await ApiService.getUsers()] (or
    [getLoginRecords()]); the response of that call is their first
    argument. *)

(** [!response.success || !response.data] *)
Definition unusable {T : Type} (response : ApiResponse T) : bool :=
  negb (success response) || negb (bool_decide (is_Some (data response))).

(** [authenticateUser(email, mobileNumber)] *)
Definition authenticateUser (usersResponse : ApiResponse (list User.User))
    (email mobileNumber : string) : ApiResponse User.User :=
  if unusable usersResponse then failure "Authentication service unavailable"
  else
    match List.find
            (fun u => String.eqb (User.email u) email
                      || String.eqb (User.mobileNumber u) mobileNumber)
            (default [] (data usersResponse)) with
    | None => failure "Invalid credentials"
    | Some user => ok user "Authentication successful"
    end.

(** [validateUserExists(email, mobileNumber)] *)
Definition validateUserExists (usersResponse : ApiResponse (list User.User))
    (email mobileNumber : string) : ApiResponse bool :=
  if unusable usersResponse then failure "Validation service unavailable"
  else
    let userExists :=
      existsb
        (fun u => String.eqb (User.email u) email
                  || String.eqb (User.mobileNumber u) mobileNumber)
        (default [] (data usersResponse)) in
    ok userExists
      (if userExists then "User already exists" else "User does not exist").

(** The comparator of the recent records:
    [b.timestamp.getTime() - a.timestamp.getTime()] *)
Definition byTimestampDescending (a b : LoginRecord.LoginRecord) : Z :=
  comparator_result
    (number_sub (LoginRecord.timestamp b) (LoginRecord.timestamp a)).

(** [getRecentLoginRecords(limit = 10)] *)
Definition getRecentLoginRecords
    (recordsResponse : ApiResponse (list LoginRecord.LoginRecord))
    (limit : option Z) : ApiResponse (list LoginRecord.LoginRecord) :=
  let limit := default 10 limit in
  if unusable recordsResponse then failure "Failed to retrieve login records"
  else
    let recentRecords :=
      slice 0 limit
        (Array_sort byTimestampDescending
           (default [] (data recordsResponse))) in
    ok recentRecords "Recent login records retrieved successfully".

End ApiService.

Module LoginForm.
Import ApiResponse.

(** [LoginFormData] *)
Record LoginFormData : Type := {
  username : string;
  password : string
}.

(** The [authUser] object built from a user. *)
Definition authUser_of (user : User.User) : AuthUser.AuthUser :=
  {| AuthUser.id := User.id user;
     AuthUser.email := User.email user;
     AuthUser.fullName := User.fullName user;
     AuthUser.mobileNumber := User.mobileNumber user |}.

(** [authenticateUser(credentials)] of the form that calls the API; the
    response of [ApiService.getUsers()] is the first argument.  A response
    without data is handed on as it is. *)
Definition authenticateUser (usersResponse : ApiResponse (list User.User))
    (credentials : LoginFormData) : ApiResponse AuthUser.AuthUser :=
  let response :=
    ApiService.authenticateUser usersResponse
      (username credentials) (username credentials) in
  match success response, data response with
  | true, Some user => ok (authUser_of user) "Login successful"
  | _, _ =>
      Build_ApiResponse (success response) (authUser_of <$> data response)
        (error response) (message response)
  end.

(** [authenticateUser(credentials)] of the form that reads the fixture
    itself; [users] is the content of [users.json], [None] when the import
    fails. *)
Definition authenticateUser_fixture (users : option (list User.User))
    (credentials : LoginFormData) : ApiResponse AuthUser.AuthUser :=
  match users with
  | None => failure "Authentication service unavailable"
  | Some users =>
      match List.find
              (fun user =>
                 String.eqb (User.email user) (username credentials)
                 || String.eqb (User.mobileNumber user) (username credentials))
              users with
      | None => failure "Invalid username or password"
      | Some user =>
          if String.eqb (password credentials) "" then
            failure "Password is required"
          else ok (authUser_of user) "Login successful"
      end
  end.

End LoginForm.

(** ** Sample users and login records *)

Definition user_alice : User.User :=
  {| User.id := "u-1"; User.createdAt := Fin 1700000000000;
     User.updatedAt := Fin 1700000000000;
     User.firstName := "Alice"; User.lastName := "Smith";
     User.email := "alice@example.com"; User.mobileNumber := "+12025550101";
     User.address := "1 Main Street, Springfield";
     User.fullName := "Alice Smith" |}.

Definition user_bob : User.User :=
  {| User.id := "u-2"; User.createdAt := Fin 1700000100000;
     User.updatedAt := Fin 1700000100000;
     User.firstName := "Bob"; User.lastName := "Jones";
     User.email := "bob@example.com"; User.mobileNumber := "+12025550102";
     User.address := "2 High Street, Shelbyville";
     User.fullName := "Bob Jones" |}.

Definition sample_users_response : ApiResponse.ApiResponse (list User.User) :=
  ApiResponse.ok [user_alice; user_bob] "Users retrieved successfully".

Definition login_record (id : string) (t : Z) : LoginRecord.LoginRecord :=
  {| LoginRecord.id := id; LoginRecord.createdAt := Fin t;
     LoginRecord.updatedAt := Fin t; LoginRecord.userId := "u-1";
     LoginRecord.activityType := "LOGIN"; LoginRecord.timestamp := Fin t;
     LoginRecord.ipAddress := None; LoginRecord.userAgent := None |}.

Definition sample_records_response
    : ApiResponse.ApiResponse (list LoginRecord.LoginRecord) :=
  ApiResponse.ok
    [login_record "l-1" 100; login_record "l-2" 300; login_record "l-3" 200]
    "Login records retrieved successfully".

(** ** The validation schemas *)

Module Validation.

(** [\s] on the characters below 256: tab to carriage return, space and the
    no-break space. *)
Definition is_space (c : ascii) : bool :=
  let n := nat_of_ascii c in
  ((9 <=? n)%nat && (n <=? 13)%nat) || (n =? 32)%nat || (n =? 160)%nat.

(** [[1-9]] *)
Definition is_digit_1_9 (c : ascii) : bool :=
  let n := nat_of_ascii c in (49 <=? n)%nat && (n <=? 57)%nat.

(** [[^\s@]] *)
Definition is_email_char (c : ascii) : bool :=
  negb (is_space c) && negb (Ascii.eqb c "@").

(** [\+?] at the start of [s]: what follows the plus sign, if there is
    one. *)
Definition strip_plus (s : string) : string :=
  match s with
  | String "+" rest => rest
  | _ => s
  end.

(** [/^\+?[1-9]\d{1,14}$/.test(s)]: an optional plus sign, a digit other
    than 0, then 1 to 14 digits. *)
Definition mobileRegex_test (s : string) : bool :=
  match strip_plus s with
  | String d digits =>
      is_digit_1_9 d
      && (1 <=? String.length digits)%nat && (String.length digits <=? 14)%nat
      && forallb is_digit (list_ascii_of_string digits)
  | EmptyString => false
  end.

(** The text before the first [c] and the text after it. *)
Fixpoint split_at_first (c : ascii) (s : string) : option (string * string) :=
  match s with
  | EmptyString => None
  | String d s' =>
      if Ascii.eqb d c then Some (EmptyString, s')
      else match split_at_first c s' with
           | Some (a, b) => Some (String d a, b)
           | None => None
           end
  end.

(** Some "." of [s] has a character after it. *)
Fixpoint dot_before_end (s : string) : bool :=
  match s with
  | EmptyString => false
  | String c s' =>
      (Ascii.eqb c "." && negb (String.eqb s' "")) || dot_before_end s'
  end.

(** [/^[^\s@]+@[^\s@]+\.[^\s@]+$/.test(s)]: the text before the first "@"
    is not empty, the text after it has a "." that is neither its first nor
    its last character, and no character besides that "@" is white space
    or "@". *)
Definition emailRegex_test (s : string) : bool :=
  match split_at_first "@" s with
  | Some (local, domain) =>
      negb (String.eqb local "")
      && forallb is_email_char (list_ascii_of_string local)
      && forallb is_email_char (list_ascii_of_string domain)
      && match domain with
         | String _ rest => dot_before_end rest
         | EmptyString => false
         end
  | None => false
  end.

(** [userRegistrationSchema.mobileNumber]: the regular expression, at least
    10 and at most 15 characters. *)
Definition registration_mobileNumber (s : string) : bool :=
  mobileRegex_test s
  && (10 <=? String.length s)%nat && (String.length s <=? 15)%nat.

(** [loginSchema.username]: not empty, and an e-mail address or a mobile
    number by the two regular expressions. *)
Definition login_username (value : string) : bool :=
  (1 <=? String.length value)%nat
  && (emailRegex_test value || mobileRegex_test value).


End Validation.

(** * Properties *)

(** ** The store *)

Lemma alloc_array_elements l σ :
  elements_of (alloc_array l σ).2 (alloc_array l σ).1 = l.
Proof.
  unfold elements_of, alloc_array; simpl.
  by rewrite lookup_insert_eq.
Qed.

Lemma fresh_array_ne σ :
  well_formed σ -> fresh (dom (arrays σ)) ≠ this_data σ.
Proof.
  intros Hwf Heq.
  apply (is_fresh (dom (arrays σ))).
  rewrite Heq. by apply elem_of_dom.
Qed.

Lemma alloc_array_stored l σ :
  well_formed σ -> stored (alloc_array l σ).2 = stored σ.
Proof.
  intros Hwf. unfold stored, elements_of, alloc_array; simpl.
  rewrite lookup_insert_ne; [done | by apply fresh_array_ne].
Qed.

Lemma alloc_array_well_formed l σ :
  well_formed σ -> well_formed (alloc_array l σ).2.
Proof.
  intros Hwf. unfold well_formed, alloc_array; simpl.
  rewrite lookup_insert_ne; [done | by apply fresh_array_ne].
Qed.

(** ** Slices and pages *)




(** ** The sort is a permutation *)

Section SortPermutation.
Context {A : Type} (cmp : A -> A -> Z).

Lemma sort_insert_perm x (l : list A) : sort_insert cmp x l ≡ₚ x :: l.
Proof.
  induction l as [| y l IH]; simpl; [done |].
  destruct (0 <? cmp x y); [| done].
  rewrite IH. apply Permutation_swap.
Qed.

Lemma Array_sort_perm (l : list A) : Array_sort cmp l ≡ₚ l.
Proof.
  induction l as [| x l IH]; simpl; [done |].
  by rewrite sort_insert_perm, IH.
Qed.

End SortPermutation.

(** ** The steps of [search] *)

Lemma filter_filter_andb {A} (f g : A -> bool) (l : list A) :
  List.filter f (List.filter g l) = List.filter (fun x => g x && f x) l.
Proof.
  induction l as [| x l IH]; simpl; [done |].
  destruct (g x); simpl; [destruct (f x) |]; by rewrite ?IH.
Qed.

Lemma filter_true {A} (l : list A) : List.filter (fun _ => true) l = l.
Proof. induction l; simpl; congruence. Qed.

Section SearchSteps.
Context `{JSRuntime}.

Lemma afterFilters_is_candidate σ params :
  afterFilters σ params = List.filter (is_candidate σ params) (stored σ).
Proof.
  unfold afterFilters, afterQuery, is_candidate.
  destruct (query params) as [q |], (filters params) as [fs |];
    try destruct (String.eqb q ""); try destruct fs as [| f fs]; simpl;
    rewrite ?filter_filter_andb, ?filter_true;
    try done; apply List.filter_ext; intros x;
    by rewrite ?Bool.andb_true_r.
Qed.

Lemma filteredData_perm σ params :
  filteredData σ params ≡ₚ List.filter (is_candidate σ params) (stored σ).
Proof.
  rewrite <- afterFilters_is_candidate. unfold filteredData.
  destruct (sortBy params) as [f |]; [| done].
  destruct (String.eqb f ""); [done |]. apply Array_sort_perm.
Qed.

Lemma search_data_slice params σ :
  search_data params σ =
  slice ((default 1 (page params) - 1) * default 10 (limit params))
        ((default 1 (page params) - 1) * default 10 (limit params)
         + default 10 (limit params))
        (filteredData σ params).
Proof.
  unfold search_data, search, alloc_array, elements_of; simpl.
  by rewrite lookup_insert_eq.
Qed.

Lemma search_meta_Some params σ :
  search_meta params σ =
  Some {| currentPage := default 1 (page params);
          totalPages :=
            Math_ceil_div (Z.of_nat (length (filteredData σ params)))
              (default 10 (limit params));
          totalItems := Z.of_nat (length (filteredData σ params));
          itemsPerPage := default 10 (limit params);
          hasNextPage :=
            number_lt (Fin (default 1 (page params)))
              (Math_ceil_div (Z.of_nat (length (filteredData σ params)))
                 (default 10 (limit params)));
          hasPreviousPage := 1 <? default 1 (page params) |}.
Proof. done. Qed.

Lemma search_stored params σ :
  well_formed σ -> stored (search params σ).2 = stored σ.
Proof. intros Hwf. unfold search. by apply alloc_array_stored. Qed.

(** A call of search does not change what the next call returns. *)
Lemma search_repeatable params params' σ :
  well_formed σ ->
  filteredData (search params' σ).2 params = filteredData σ params.
Proof.
  intros Hwf.
  pose proof (search_stored params' σ Hwf) as Hst.
  unfold filteredData, afterFilters, afterQuery, applyFilter, matchesQuery,
    compareFn, getField, Object_values.
  by rewrite Hst.
Qed.

End SearchSteps.

(** ** C1: the pages of a request *)

Section Pagination.
Context `{JSRuntime}.


End Pagination.


(** ** C2: the pagination metadata *)



Section Metadata.
Context `{JSRuntime}.


End Metadata.


(** ** Strings: prefix, substring, suffix *)

Lemma String_length_app (a b : string) :
  String.length (a +:+ b) = (String.length a + String.length b)%nat.
Proof. induction a as [| c a IH]; simpl; [done | by rewrite IH]. Qed.

Lemma startsWith_spec (s p : string) :
  startsWith s p = true <-> exists post, s = p +:+ post.
Proof.
  revert s. induction p as [| c p IH]; intros s; simpl.
  - split; [by exists s | done].
  - destruct s as [| d s]; simpl.
    + split; [done | by intros [post ?]].
    + rewrite andb_true_iff, Ascii.eqb_eq, IH. split.
      * intros [-> [post ->]]. by exists post.
      * intros [post [= -> ->]]. eauto.
Qed.

Lemma includes_spec (s q : string) :
  includes s q = true <-> exists pre post, s = pre +:+ q +:+ post.
Proof.
  induction s as [| c s IH]; simpl.
  - rewrite orb_false_r, startsWith_spec. split.
    + intros [post Hs]. by exists EmptyString, post.
    + intros ([| d pre] & post & Hs); [by exists post | done].
  - rewrite orb_true_iff, IH. split.
    + intros [Hp | (pre & post & ->)].
      * apply startsWith_spec in Hp as [post Hs].
        by exists EmptyString, post.
      * by exists (String c pre), post.
    + intros ([| d pre] & post & Hs); simpl in Hs.
      * left. apply startsWith_spec. by exists post.
      * right. injection Hs as -> ->. by exists pre, post.
Qed.





(** ** C3: the operators of a structured filter *)


Section Operators.
Context `{JSRuntime}.


End Operators.

Example applyFilter_contains_ali :
  List.filter
    (fun item =>
       @applyFilter ascii_runtime sample_state item
         {| field := "buyerName"; value := VString "ali"; operator := CONTAINS |})
    (stored sample_state)
  = [1%positive; 3%positive].
Proof. by vm_compute. Qed.

(** ** C4: the free-text query *)

Lemma includes_empty (s : string) : includes s "" = true.
Proof. by destruct s. Qed.

Lemma getField_Object_values (σ : State) (item : loc) (f : string) (v : JSValue) :
  getField σ item f = v -> v <> VUndefined -> v ∈ Object_values σ item.
Proof.
  unfold getField, Object_values. intros Hget Hv.
  destruct (objects σ !! item) as [o |]; [| congruence].
  destruct (o !! f) as [w |] eqn:Hf; simpl in Hget; [subst w | congruence].
  apply list_elem_of_fmap. exists (f, v). split; [done |].
  by apply elem_of_map_to_list.
Qed.

Section FreeText.
Context `{JSRuntime}.

Lemma matchesQuery_spec (σ : State) (q : string) (item : loc) :
  matchesQuery σ q item = true <->
  exists s : string,
    VString s ∈ Object_values σ item /\
    exists pre post, toLowerCase s = pre +:+ q +:+ post.
Proof.
  unfold matchesQuery. rewrite existsb_exists. split.
  - intros (v & Hin & Hv). destruct v as [| | | | s |]; try done.
    exists s. split; [by apply list_elem_of_In | by apply includes_spec].
  - intros (s & Hin & Hs). exists (VString s).
    split; [by apply list_elem_of_In | by apply includes_spec].
Qed.

(** C4.  With a free-text query [q], the entities kept are those of the
    collection, in their order, that have at least one own property value
    that is a string whose lowering contains the lowered query; values that
    are not strings do not count.  (A query that is the empty string skips
    the step and keeps every entity: that is the same set as soon as every
    entity has its string [id].) *)
Theorem free_text_query (σ : State) (params : SearchParameters) (q : string) :
  query params = Some q ->
  q <> "" \/
  (forall item, item ∈ stored σ ->
     exists s, getField σ item "id" = VString s) ->
  afterQuery σ params
  = List.filter (matchesQuery σ (toLowerCase q)) (stored σ) /\
  forall item : loc,
    matchesQuery σ (toLowerCase q) item = true <->
    exists s : string,
      VString s ∈ Object_values σ item /\
      exists pre post, toLowerCase s = pre +:+ toLowerCase q +:+ post.
Proof.
  intros Hq Hpresent. split; [| intros item; apply matchesQuery_spec].
  unfold afterQuery. rewrite Hq.
  destruct (String.eqb q "") eqn:Hempty; [| done].
  apply String.eqb_eq in Hempty as ->.
  destruct Hpresent as [? | Hid]; [done |].
  symmetry. apply forallb_filter_id, forallb_forall.
  intros item Hin%list_elem_of_In.
  destruct (Hid item Hin) as [s Hs].
  apply matchesQuery_spec. exists s. split.
  - by apply (getField_Object_values σ item "id").
  - rewrite toLowerCase_empty. apply includes_spec, includes_empty.
Qed.

End FreeText.

Lemma free_text_query_witness :
  query (query_request "ALI") = Some "ALI" /\
  @afterQuery ascii_runtime sample_state (query_request "ALI")
  = List.filter (@matchesQuery ascii_runtime sample_state
                   (@toLowerCase ascii_runtime "ALI"))
      (stored sample_state) /\
  forall item : loc,
    @matchesQuery ascii_runtime sample_state
      (@toLowerCase ascii_runtime "ALI") item = true <->
    exists s : string,
      VString s ∈ Object_values sample_state item /\
      exists pre post,
        @toLowerCase ascii_runtime s
        = pre +:+ @toLowerCase ascii_runtime "ALI" +:+ post.
Proof.
  split; [reflexivity |].
  apply (@free_text_query ascii_runtime sample_state (query_request "ALI") "ALI").
  - reflexivity.
  - left. discriminate.
Defined.

Example free_text_query_sample :
  @afterQuery ascii_runtime sample_state (query_request "ALI")
  = [1%positive; 3%positive].
Proof. by vm_compute. Qed.

(** ** C6: a filter on a property the entity does not have *)


Section AbsentField.
Context `{JSRuntime}.

Lemma lessThan_undefined_l (v : JSValue) : lessThan VUndefined v = false.
Proof. done. Qed.



End AbsentField.



(** ** C10: search has no failure branch *)

Section NoFailure.
Context `{JSRuntime}.


End NoFailure.

Example search_page_beyond_last :
  (fun m => (currentPage m, itemsPerPage m, totalPages m))
    <$> @search_meta ascii_runtime (page_request 7 2) sample_state
  = Some (7, 2, Fin 2).
Proof. by vm_compute. Qed.

(** ** C8: only add and clear change the collection *)

Lemma new_DataService_well_formed objs : well_formed (new_DataService objs).
Proof. unfold well_formed; simpl. by rewrite lookup_singleton_eq. Qed.

Lemma add_well_formed item σ : well_formed (add item σ).
Proof. unfold well_formed; simpl. by rewrite lookup_insert_eq. Qed.

Lemma clear_well_formed σ : well_formed (clear σ).
Proof. unfold well_formed; simpl. by rewrite lookup_insert_eq. Qed.

Lemma add_stored item σ : stored (add item σ) = stored σ ++ [item].
Proof. unfold stored at 1, elements_of; simpl. by rewrite lookup_insert_eq. Qed.

Lemma clear_stored σ : stored (clear σ) = [].
Proof. unfold stored, elements_of; simpl. by rewrite lookup_insert_eq. Qed.

Section CallSequences.
Context `{JSRuntime}.

Lemma invoke_well_formed c σ : well_formed σ -> well_formed (invoke c σ).
Proof.
  intros Hwf. destruct c; simpl; try done.
  - apply add_well_formed.
  - by apply alloc_array_well_formed.
  - by apply alloc_array_well_formed.
  - unfold search. by apply alloc_array_well_formed.
  - apply clear_well_formed.
Qed.

Lemma run_well_formed cs σ : well_formed σ -> well_formed (run cs σ).
Proof.
  revert σ. induction cs as [| c cs IH]; intros σ Hwf; simpl; [done |].
  by apply IH, invoke_well_formed.
Qed.

Lemma invoke_query_stored c σ :
  well_formed σ ->
  match c with
  | Add _ | Clear => True
  | _ => stored (invoke c σ) = stored σ
  end.
Proof.
  intros Hwf. destruct c; simpl; try done.
  - by apply alloc_array_stored.
  - by apply alloc_array_stored.
  - by apply search_stored.
Qed.

Lemma invoke_count c σ :
  well_formed σ ->
  count (invoke c σ)
  = match c with Add _ => count σ + 1 | Clear => 0 | _ => count σ end.
Proof.
  intros Hwf. unfold count.
  pose proof (invoke_query_stored c σ Hwf) as Hq.
  destruct c; simpl in *; rewrite ?Hq; try done.
  - rewrite add_stored, length_app. simpl. lia.
  - by rewrite clear_stored.
Qed.

Lemma run_count cs σ :
  well_formed σ -> count (run cs σ) = adds_since_clear (count σ) cs.
Proof.
  revert σ. induction cs as [| c cs IH]; intros σ Hwf; simpl; [done |].
  rewrite IH by by apply invoke_well_formed.
  unfold adds_since_clear. simpl. f_equal.
  rewrite invoke_count by done. by destruct c.
Qed.

Lemma invoke_objects c σ : objects (invoke c σ) = objects σ.
Proof. by destruct c. Qed.

(** C8.  After any sequence of calls on a new engine, count is the number
    of add calls since the last clear (since construction when there was
    none); a call of findById, findAll, findBy, search or count leaves the
    stored sequence as it was, elements and order; add appends its item and
    clear leaves the empty sequence; no call changes an entity object. *)
Theorem collection_changed_only_by_add_and_clear
    (objs : gmap loc (gmap string JSValue)) (cs : list Call) (c : Call) :
  count (run cs (new_DataService objs)) = adds_since_clear 0 cs /\
  match c with
  | Add item =>
      stored (invoke c (run cs (new_DataService objs)))
      = stored (run cs (new_DataService objs)) ++ [item]
  | Clear => stored (invoke c (run cs (new_DataService objs))) = []
  | _ =>
      stored (invoke c (run cs (new_DataService objs)))
      = stored (run cs (new_DataService objs))
  end /\
  objects (invoke c (run cs (new_DataService objs))) = objs.
Proof.
  pose proof (run_well_formed cs _ (new_DataService_well_formed objs)) as Hwf.
  split; [| split].
  - by rewrite run_count by apply new_DataService_well_formed.
  - pose proof (invoke_query_stored c _ Hwf) as Hq.
    destruct c; try done.
    + apply add_stored.
    + apply clear_stored.
  - rewrite invoke_objects. clear Hwf.
    induction cs as [| c' cs IH] using rev_ind; [done |].
    unfold run. rewrite foldl_app. simpl. by rewrite invoke_objects.
Qed.

End CallSequences.

(** ** C7: the array returned by findAll *)

Section Observations.
Context `{JSRuntime}.

(** What the engine shows depends on the stored sequence and on the entity
    objects only. *)
Lemma filteredData_frame (σ σ' : State) (params : SearchParameters) :
  objects σ' = objects σ -> stored σ' = stored σ ->
  filteredData σ' params = filteredData σ params.
Proof.
  intros Hobj Hst.
  unfold filteredData, afterFilters, afterQuery, applyFilter, matchesQuery,
    compareFn, getField, Object_values.
  by rewrite Hobj, Hst.
Qed.

Lemma search_frame (σ σ' : State) (params : SearchParameters) :
  objects σ' = objects σ -> stored σ' = stored σ ->
  search_data params σ' = search_data params σ /\
  search_meta params σ' = search_meta params σ.
Proof.
  intros Hobj Hst.
  rewrite !search_data_slice, !search_meta_Some.
  by rewrite (filteredData_frame σ σ').
Qed.

Lemma findById_frame (σ σ' : State) (id : string) :
  objects σ' = objects σ -> stored σ' = stored σ ->
  findById id σ' = findById id σ.
Proof.
  intros Hobj Hst. unfold findById, getField. by rewrite Hobj, Hst.
Qed.

(** C7, amended.  findAll returns a new array with the stored references, in
    order.  Whatever the caller does to the elements of that array (assign,
    push, pop, splice, reverse, sort, truncate), count, findAll, findById and
    search answer as before.  (The entity objects themselves are shared with
    the engine, not copied.) *)
Theorem findAll_returns_new_array (σ : State) (f : list loc -> list loc) :
  well_formed σ ->
  (findAll σ).1 <> this_data σ /\
  elements_of (findAll σ).2 (findAll σ).1 = stored σ /\
  count (update_elements (findAll σ).1 f (findAll σ).2) = count σ /\
  elements_of (findAll (update_elements (findAll σ).1 f (findAll σ).2)).2
    (findAll (update_elements (findAll σ).1 f (findAll σ).2)).1
  = stored σ /\
  (forall id : string,
     findById id (update_elements (findAll σ).1 f (findAll σ).2)
     = findById id σ) /\
  (forall params : SearchParameters,
     search_data params (update_elements (findAll σ).1 f (findAll σ).2)
     = search_data params σ /\
     search_meta params (update_elements (findAll σ).1 f (findAll σ).2)
     = search_meta params σ).
Proof.
  intros Hwf.
  pose proof (fresh_array_ne σ Hwf) as Hne.
  assert (stored (update_elements (findAll σ).1 f (findAll σ).2) = stored σ)
    as Hst.
  { unfold stored, elements_of, update_elements, findAll, alloc_array; simpl.
    rewrite lookup_alter_ne by done. by rewrite lookup_insert_ne. }
  split; [done |]. split; [apply alloc_array_elements |].
  split; [unfold count; by rewrite Hst |].
  split; [unfold findAll at 1 2; by rewrite alloc_array_elements |].
  split; [intros id; by apply findById_frame |].
  intros params. by apply search_frame.
Qed.

End Observations.

Lemma findAll_returns_new_array_witness :
  well_formed sample_state /\
  (findAll sample_state).1 <> this_data sample_state /\
  elements_of (findAll sample_state).2 (findAll sample_state).1
  = stored sample_state /\
  count (update_elements (findAll sample_state).1 (@rev loc)
           (findAll sample_state).2)
  = count sample_state /\
  elements_of
    (findAll (update_elements (findAll sample_state).1 (@rev loc)
                (findAll sample_state).2)).2
    (findAll (update_elements (findAll sample_state).1 (@rev loc)
                (findAll sample_state).2)).1
  = stored sample_state /\
  (forall id : string,
     findById id (update_elements (findAll sample_state).1 (@rev loc)
                    (findAll sample_state).2)
     = findById id sample_state) /\
  (forall params : SearchParameters,
     @search_data ascii_runtime params
       (update_elements (findAll sample_state).1 (@rev loc)
          (findAll sample_state).2)
     = @search_data ascii_runtime params sample_state /\
     @search_meta ascii_runtime params
       (update_elements (findAll sample_state).1 (@rev loc)
          (findAll sample_state).2)
     = @search_meta ascii_runtime params sample_state).
Proof.
  split; [apply add_well_formed |].
  apply (@findAll_returns_new_array ascii_runtime sample_state (@rev loc)).
  apply add_well_formed.
Defined.

(** C7 as stated fails for the entities reached through the returned array:
    they are the engine's own objects.  The caller takes the first element
    of the array returned by findAll and assigns it a property; search then
    answers differently. *)
Lemma findAll_shares_entities :
  elements_of (findAll sample_state).2 (findAll sample_state).1 !! 0%nat
  = Some 1%positive /\
  @search_data ascii_runtime (query_request "changed") sample_state = [] /\
  @search_data ascii_runtime (query_request "changed")
    (set_property 1%positive "note" (VString "changed") (findAll sample_state).2)
  = [1%positive] /\
  totalItems
    <$> @search_meta ascii_runtime (query_request "changed") sample_state
  = Some 0 /\
  totalItems
    <$> @search_meta ascii_runtime (query_request "changed")
          (set_property 1%positive "note" (VString "changed")
             (findAll sample_state).2)
  = Some 1.
Proof. by vm_compute. Qed.

(** ** C5: the sort *)

Section StableSort.
Context {A : Type} (cmp : A -> A -> Z).



Context (dom : A -> Prop).
Hypothesis cmp_total :
  forall x y, dom x -> dom y -> 0 < cmp x y -> cmp y x <= 0.
Hypothesis cmp_trans :
  forall x y z, dom x -> dom y -> dom z ->
                cmp x y <= 0 -> cmp y z <= 0 -> cmp x z <= 0.



End StableSort.

(** For a consistent comparator the stable sorted arrangement is unique:
    two sorted lists that keep, for each element, the elements tying with it
    in the same order are equal.  The result of [Array_sort] is therefore
    the result of any stable sort. *)
Section StableSortUnique.
Context {A : Type} (cmp : A -> A -> Z) (tie : A -> A -> bool).
Hypothesis tie_spec :
  forall x y, tie x y = true <-> cmp x y <= 0 /\ cmp y x <= 0.
Hypothesis cmp_refl : forall x, cmp x x <= 0.


End StableSortUnique.

(** [<] is asymmetric. *)
Lemma number_lt_asym (a b : number) :
  number_lt a b = true -> number_lt b a = false.
Proof. destruct a, b; simpl; try done. lia. Qed.

Lemma String_ltb_asym (x y : string) :
  String.ltb x y = true -> String.ltb y x = false.
Proof.
  unfold String.ltb. rewrite (String.compare_antisym y x).
  by destruct (String.compare x y).
Qed.


Lemma number_lt_negtrans (a b c : number) :
  b <> NaN ->
  number_lt a c = true -> number_lt a b = true \/ number_lt b c = true.
Proof.
  destruct a, b, c; simpl; try done; try (by left); try (by right).
  intros _ Hac. destruct (Z.ltb_spec z z0); [by left | right]. lia.
Qed.


Section SortByField.
Context `{JSRuntime}.

Lemma lessThan_asym (a b : JSValue) :
  lessThan a b = true -> lessThan b a = false.
Proof.
  destruct a as [| | | | x |], b as [| | | | y |];
    try exact (number_lt_asym (ToNumber _) (ToNumber _)).
  exact (String_ltb_asym x y).
Qed.








Lemma all_numeric_keys_comparable (σ : State) (f : string) (l : list loc) :
  all_numeric_keys σ f l = true -> keys_comparable σ f l.
Proof.
  unfold all_numeric_keys. rewrite forallb_forall.
  intros Hall a b c Ha%list_elem_of_In Hb%list_elem_of_In Hc%list_elem_of_In.
  pose proof (Hall a Ha) as Ka. pose proof (Hall b Hb) as Kb.
  pose proof (Hall c Hc) as Kc.
  assert (ToNumber (getField σ b f) <> NaN) as Hnan.
  { destruct (getField σ b f) as [| | [|] | [] | | ? []]; done. }
  assert (forall v w, lessThan (getField σ a f) v = number_lt (ToNumber (getField σ a f)) (ToNumber v)
                      /\ lessThan (getField σ b f) w = number_lt (ToNumber (getField σ b f)) (ToNumber w))
    as Hnum.
  { intros v w. destruct (getField σ a f), (getField σ b f); done. }
  rewrite (proj1 (Hnum (getField σ c f) (getField σ c f))).
  rewrite (proj1 (Hnum (getField σ b f) (getField σ c f))).
  rewrite (proj2 (Hnum (getField σ c f) (getField σ c f))).
  by apply number_lt_negtrans.
Qed.



End SortByField.


(** The statuses PENDING, DELIVERED, SHIPPED in descending order: the order
    of the strings. *)
Example sort_status_descending :
  @filteredData ascii_runtime sample_state (sort_request "status" (Some DESC))
  = [3%positive; 1%positive; 2%positive].
Proof. by vm_compute. Qed.


(** ** C9: the order number *)

(** A usual case: thirteen digits of time, eleven base-36 digits of
    randomness. *)
Example generateOrderNumber_usual :
  @generateOrderNumber ascii_runtime 1762124400000 "0.4fzyo82mvyr"
  = "ORD-24400000-4FZY" /\
  order_number_format
    (@generateOrderNumber ascii_runtime 1762124400000 "0.4fzyo82mvyr") = true.
Proof. by vm_compute. Qed.

(** C9 fails on the code.  When [Math.random()] returns 0.5, its base-36
    string is "0.i" and the random part has one character; when it returns
    0, the string is "0" and the random part is empty.  A clock value below
    ten million milliseconds gives fewer than eight digits. *)
Theorem generateOrderNumber_short_suffix :
  @generateOrderNumber ascii_runtime 1762124400000 "0.i" = "ORD-24400000-I" /\
  order_number_format (@generateOrderNumber ascii_runtime 1762124400000 "0.i")
  = false /\
  @generateOrderNumber ascii_runtime 1762124400000 "0" = "ORD-24400000-" /\
  order_number_format (@generateOrderNumber ascii_runtime 1762124400000 "0")
  = false /\
  @generateOrderNumber ascii_runtime 1234567 "0.4fzyo82mvyr"
  = "ORD-1234567-4FZY" /\
  order_number_format
    (@generateOrderNumber ascii_runtime 1234567 "0.4fzyo82mvyr") = false.
Proof. by vm_compute. Qed.

Lemma substring_length (s : string) (n m : nat) :
  String.length (substring n m s) = Nat.min m (String.length s - n).
Proof.
  revert n m. induction s as [| c s IH]; intros [| n] [| m]; simpl;
    try done; rewrite IH; lia.
Qed.

Lemma String_map_length (f : ascii -> ascii) (s : string) :
  String.length (String_map f s) = String.length s.
Proof. induction s as [| c s IH]; simpl; congruence. Qed.

Lemma String_slice_length (k : Z) (s : string) :
  k < 0 -> (String.length (String_slice k s) <= Z.to_nat (- k))%nat.
Proof.
  intros Hk. unfold String_slice.
  assert ((k <? 0) = true) as -> by lia.
  rewrite substring_length. lia.
Qed.

(** Every base-36 string of fewer than six characters (fewer than four
    digits after "0.") gives an order number outside the format. *)
Lemma generateOrderNumber_short_random (now : Z) (random36 : string) :
  (String.length random36 < 6)%nat ->
  order_number_format (@generateOrderNumber ascii_runtime now random36) = false.
Proof.
  intros Hshort. unfold order_number_format.
  assert ((String.length (@generateOrderNumber ascii_runtime now random36)
           =? 17)%nat = false) as ->; [| done].
  apply Nat.eqb_neq. unfold generateOrderNumber.
  rewrite !String_length_app. simpl.
  rewrite String_map_length. unfold String_substring.
  rewrite substring_length.
  pose proof (String_slice_length (-8) (Number_toString now) ltac:(lia)).
  lia.
Qed.

(** * Further properties of the engine *)

(** ** Lookups *)

Lemma strictEquals_string (v : JSValue) (s : string) :
  strictEquals v (VString s) = true <-> v = VString s.
Proof.
  destruct v; simpl; try (split; [done | discriminate]).
  rewrite String.eqb_eq. split; [by intros -> | by intros [= ->]].
Qed.

Lemma find_first {A} (p : A -> bool) (l : list A) :
  match List.find p l with
  | Some x =>
      exists l1 l2, l = l1 ++ x :: l2 /\ p x = true /\
                    Forall (fun y => p y = false) l1
  | None => Forall (fun y => p y = false) l
  end.
Proof.
  induction l as [| y l IH]; simpl; [constructor |].
  destruct (p y) eqn:Hy.
  - exists [], l. by repeat split.
  - destruct (List.find p l) as [x |].
    + destruct IH as (l1 & l2 & -> & Hx & Hl1).
      exists (y :: l1), l2. repeat split; [done |]. by constructor.
    + by constructor.
Qed.

Lemma find_head_filter {A} (p : A -> bool) (l : list A) :
  List.find p l = head (List.filter p l).
Proof.
  induction l as [| y l IH]; simpl; [done |]. by destruct (p y).
Qed.

(** X1.  findById returns the first stored entity whose id is the given
    string: the entities before it have another id (or none); it returns
    nothing exactly when no stored entity has the id. *)
Theorem findById_first_match (id : string) (σ : State) :
  match findById id σ with
  | Some item =>
      exists l1 l2,
        stored σ = l1 ++ item :: l2 /\
        getField σ item "id" = VString id /\
        Forall (fun x => getField σ x "id" <> VString id) l1
  | None => Forall (fun x => getField σ x "id" <> VString id) (stored σ)
  end.
Proof.
  unfold findById.
  pose proof (find_first
                (fun item => strictEquals (getField σ item "id") (VString id))
                (stored σ)) as Hfind.
  destruct (List.find _ _) as [item |].
  - destruct Hfind as (l1 & l2 & Hst & Hitem & Hl1).
    exists l1, l2. split; [done |]. split; [by apply strictEquals_string |].
    eapply Forall_impl; [exact Hl1 |]. intros x Hx Heq.
    apply strictEquals_string in Heq. simpl in Hx. congruence.
  - eapply Forall_impl; [exact Hfind |]. intros x Hx Heq.
    apply strictEquals_string in Heq. simpl in Hx. congruence.
Qed.

(** X2.  findById(id) is the first element of the array that
    findBy('id', id) returns, and nothing when that array is empty. *)
Theorem findById_head_findBy (id : string) (σ : State) :
  findById id σ
  = head (elements_of (findBy "id" (VString id) σ).2
            (findBy "id" (VString id) σ).1).
Proof.
  unfold findBy. rewrite alloc_array_elements. apply find_head_filter.
Qed.

Lemma strictEquals_NaN_l (v : JSValue) : strictEquals (VNumber NaN) v = false.
Proof. by destruct v. Qed.

Lemma strictEquals_NaN_r (v : JSValue) : strictEquals v (VNumber NaN) = false.
Proof. destruct v as [| | | [] | |]; done. Qed.

Section NaNNeverEqual.
Context `{JSRuntime}.

(** X3.  NaN is equal to nothing, itself included: findBy with the value NaN
    returns an empty array, and an EQUALS filter does not match when the
    filter value or the entity's value is NaN. *)
Theorem equals_never_matches_NaN (σ : State) (fld : string) :
  elements_of (findBy fld (VNumber NaN) σ).2 (findBy fld (VNumber NaN) σ).1
  = [] /\
  (forall (item : loc) (v : JSValue),
     applyFilter σ item
       {| field := fld; value := VNumber NaN; operator := EQUALS |} = false /\
     (getField σ item fld = VNumber NaN ->
      applyFilter σ item {| field := fld; value := v; operator := EQUALS |}
      = false)).
Proof.
  split.
  - unfold findBy. rewrite alloc_array_elements.
    induction (stored σ) as [| x l IH]; simpl; [done |].
    by rewrite strictEquals_NaN_r.
  - intros item v. unfold applyFilter; simpl. split.
    + apply strictEquals_NaN_r.
    + intros ->. apply strictEquals_NaN_l.
Qed.

End NaNNeverEqual.

(** ** The page window *)

Lemma slice_sublist {A} (s e : Z) (l : list A) : sublist (slice s e l) l.
Proof.
  unfold slice. etrans; [apply sublist_take | apply sublist_drop].
Qed.

Section PageWindow.
Context `{JSRuntime}.



Lemma search_data_candidates (σ : State) (params : SearchParameters) :
  Forall (fun item => item ∈ stored σ /\ is_candidate σ params item = true)
    (search_data params σ).
Proof.
  apply Forall_forall. intros item Hin.
  rewrite search_data_slice in Hin.
  assert (item ∈ filteredData σ params) as Hfd
    by (eapply elem_of_sublist; [exact Hin | apply slice_sublist]).
  rewrite filteredData_perm in Hfd.
  apply list_elem_of_In, filter_In in Hfd as [Hst Hc].
  by apply list_elem_of_In in Hst.
Qed.

Lemma search_data_length_le (σ : State) (params : SearchParameters) :
  (length (search_data params σ) <= length (filteredData σ params))%nat.
Proof. rewrite search_data_slice. apply sublist_length, slice_sublist. Qed.

(** X6.  search returns entities of the collection only, each of them a
    candidate (it passes the query and every filter); the page is never
    longer than totalItems, and totalItems never exceeds count. *)
Theorem search_results_sound (σ : State) (params : SearchParameters) :
  Forall (fun item => item ∈ stored σ /\ is_candidate σ params item = true)
    (search_data params σ) /\
  Z.of_nat (length (search_data params σ))
  <= Z.of_nat (length (filteredData σ params)) <= count σ /\
  totalItems <$> search_meta params σ
  = Some (Z.of_nat (length (filteredData σ params))).
Proof.
  split; [apply search_data_candidates | split; [| done]].
  split; [apply inj_le, search_data_length_le |].
  unfold count. apply inj_le.
  rewrite filteredData_perm. apply List.filter_length_le.
Qed.

Lemma List_filter_sublist {A} (p : A -> bool) (l : list A) :
  sublist (List.filter p l) l.
Proof.
  induction l as [| x l IH]; simpl; [constructor |].
  destruct (p x); by constructor.
Qed.

(** X7.  Without sortBy (absent or empty) the returned entities are in the
    order in which they are stored: the data array is the stored sequence
    with entities left out. *)
Theorem search_keeps_stored_order (σ : State) (params : SearchParameters) :
  sortBy params = None \/ sortBy params = Some "" ->
  sublist (search_data params σ) (stored σ).
Proof.
  intros Hsort. rewrite search_data_slice.
  etrans; [apply slice_sublist |].
  assert (filteredData σ params = afterFilters σ params) as ->.
  { unfold filteredData. by destruct Hsort as [-> | ->]. }
  rewrite afterFilters_is_candidate. apply List_filter_sublist.
Qed.

Lemma forallb_Permutation {A} (p : A -> bool) (l l' : list A) :
  l ≡ₚ l' -> forallb p l = forallb p l'.
Proof.
  induction 1 as [| x l l' _ IH | x y l | l l' l'' _ IH1 _ IH2]; simpl;
    [done | by rewrite IH | | congruence].
  by destruct (p x), (p y).
Qed.

(** X9.  The filters are a conjunction: listing the same filters in another
    order gives the same data array and the same metadata. *)
Theorem search_filters_order_irrelevant (σ : State) (params : SearchParameters)
    (fs fs' : list FilterCriteria) :
  filters params = Some fs -> fs ≡ₚ fs' ->
  search_data (with_filters fs' params) σ = search_data params σ /\
  search_meta (with_filters fs' params) σ = search_meta params σ.
Proof.
  intros Hfs Hperm.
  assert (afterFilters σ (with_filters fs' params) = afterFilters σ params)
    as Haf.
  { rewrite !afterFilters_is_candidate. apply List.filter_ext. intros item.
    unfold is_candidate. simpl. rewrite Hfs. f_equal.
    symmetry. by apply forallb_Permutation. }
  assert (filteredData σ (with_filters fs' params) = filteredData σ params)
    as Hfd.
  { unfold filteredData. simpl. by rewrite Haf. }
  rewrite !search_data_slice, !search_meta_Some. simpl. by rewrite Hfd.
Qed.

(** X10.  GREATER_THAN and LESS_THAN exclude each other: no entity matches
    both for the same field and value. *)
Theorem greater_than_excludes_less_than (σ : State) (item : loc)
    (fld : string) (v : JSValue) :
  applyFilter σ item {| field := fld; value := v; operator := GREATER_THAN |}
  && applyFilter σ item {| field := fld; value := v; operator := LESS_THAN |}
  = false.
Proof.
  unfold applyFilter, greaterThan; simpl.
  destruct (lessThan v (getField σ item fld)) eqn:Hgt; [| done].
  simpl. by apply lessThan_asym.
Qed.

End PageWindow.

(** ** Sequences of calls, continued *)

Lemma foldl_add_stored (orders : list loc) (σ : State) :
  stored (foldl (fun s order => add order s) σ orders) = stored σ ++ orders.
Proof.
  revert σ. induction orders as [| o orders IH]; intros σ; simpl.
  - by rewrite app_nil_r.
  - by rewrite IH, add_stored, <- app_assoc.
Qed.

Lemma foldl_add_objects (orders : list loc) (σ : State) :
  objects (foldl (fun s order => add order s) σ orders) = objects σ.
Proof.
  revert σ. induction orders as [| o orders IH]; intros σ; simpl; [done |].
  by rewrite IH.
Qed.

(** X11.  Loading the dashboard's orders leaves exactly the loaded orders in
    the engine, in their order, whatever it held before: nothing of an
    earlier load survives, and loading twice is the same as loading once. *)
Theorem loadOrders_replaces_collection (orders previous : list loc) (σ : State) :
  stored (loadOrders orders σ) = orders /\
  count (loadOrders orders σ) = Z.of_nat (length orders) /\
  stored (loadOrders orders (loadOrders previous σ)) = orders /\
  objects (loadOrders orders σ) = objects σ.
Proof.
  assert (forall s, stored (loadOrders orders s) = orders) as Hload.
  { intros s. unfold loadOrders. by rewrite foldl_add_stored, clear_stored. }
  split; [apply Hload |]. split; [unfold count; by rewrite Hload |].
  split; [apply Hload |].
  unfold loadOrders. by rewrite foldl_add_objects.
Qed.

Section Snapshots.
Context `{JSRuntime}.

Lemma alloc_array_snapshot r l l' σ :
  snapshot_at r l σ -> snapshot_at r l (alloc_array l' σ).2.
Proof.
  intros (Hr & Hne & Hwf). split; [| split].
  - simpl. rewrite lookup_insert_ne; [done |].
    intros Heq. apply (is_fresh (dom (arrays σ))).
    rewrite Heq. by apply elem_of_dom.
  - done.
  - by apply alloc_array_well_formed.
Qed.

Lemma invoke_snapshot c r l σ :
  snapshot_at r l σ -> snapshot_at r l (invoke c σ).
Proof.
  intros Hsnap. pose proof Hsnap as (Hr & Hne & Hwf).
  destruct c; simpl; try done.
  - split; [| split; [done | apply add_well_formed]].
    simpl. by rewrite lookup_insert_ne.
  - by apply alloc_array_snapshot.
  - by apply alloc_array_snapshot.
  - unfold search. by apply alloc_array_snapshot.
  - assert (fresh (dom (arrays σ)) <> r) as Hfresh.
    { intros Heq. apply (is_fresh (dom (arrays σ))).
      rewrite Heq. by apply elem_of_dom. }
    split; [| split; [done | apply clear_well_formed]].
    simpl. by rewrite lookup_insert_ne.
Qed.

Lemma run_snapshot cs r l σ :
  snapshot_at r l σ -> snapshot_at r l (run cs σ).
Proof.
  revert σ. induction cs as [| c cs IH]; intros σ Hsnap; simpl; [done |].
  by apply IH, invoke_snapshot.
Qed.

(** X12.  The array returned by findAll is a snapshot: whatever is called on
    the engine afterwards (add, clear, search, ...), the array keeps the
    entities that were stored when findAll was called. *)
Theorem findAll_snapshot_survives_calls
    (objs : gmap loc (gmap string JSValue)) (before after : list Call) :
  elements_of
    (run after (findAll (run before (new_DataService objs))).2)
    (findAll (run before (new_DataService objs))).1
  = stored (run before (new_DataService objs)).
Proof.
  set (σ := run before (new_DataService objs)).
  assert (well_formed σ) as Hwf
    by apply run_well_formed, new_DataService_well_formed.
  assert (snapshot_at (findAll σ).1 (stored σ) (findAll σ).2) as Hsnap.
  { split; [| split].
    - simpl. by rewrite lookup_insert_eq.
    - simpl. by apply fresh_array_ne.
    - unfold findAll. by apply alloc_array_well_formed. }
  apply (run_snapshot after) in Hsnap as (Hr & _).
  unfold elements_of. by rewrite Hr.
Qed.

(** X8.  Searching is repeatable: on an engine reached by any sequence of
    calls, a search returns the same data and metadata after any number of
    other searches and lookups in between. *)
Theorem search_repeatable_after_queries
    (objs : gmap loc (gmap string JSValue)) (before between : list Call)
    (params : SearchParameters) :
  Forall (fun c => match c with Add _ | Clear => False | _ => True end) between ->
  search_data params (run between (run before (new_DataService objs)))
  = search_data params (run before (new_DataService objs)) /\
  search_meta params (run between (run before (new_DataService objs)))
  = search_meta params (run before (new_DataService objs)).
Proof.
  set (σ := run before (new_DataService objs)).
  assert (well_formed σ) as Hwf
    by apply run_well_formed, new_DataService_well_formed.
  clearbody σ. intros Hq.
  assert (stored (run between σ) = stored σ /\
          objects (run between σ) = objects σ) as [Hst Hobj].
  { revert σ Hwf. induction Hq as [| c cs Hc Hcs IH]; intros σ Hwf; [done |].
    simpl. destruct (IH (invoke c σ) (invoke_well_formed c σ Hwf)) as [-> ->].
    split; [| apply invoke_objects].
    pose proof (invoke_query_stored c σ Hwf) as Hinv. by destruct c. }
  by apply search_frame.
Qed.

End Snapshots.



Lemma search_keeps_stored_order_witness :
  sublist (@search_data ascii_runtime (query_request "ali") sample_state)
    (stored sample_state).
Proof.
  apply (@search_keeps_stored_order ascii_runtime sample_state
           (query_request "ali")).
  left. reflexivity.
Defined.

Lemma search_filters_order_irrelevant_witness :
  @search_data ascii_runtime
    (with_filters
       [ {| field := "buyerName"; value := VString "ali";
            operator := CONTAINS |};
         {| field := "status"; value := VString "PENDING";
            operator := EQUALS |} ]
       (with_filters
          [ {| field := "status"; value := VString "PENDING";
               operator := EQUALS |};
            {| field := "buyerName"; value := VString "ali";
               operator := CONTAINS |} ]
          (page_request 1 10)))
    sample_state
  = @search_data ascii_runtime
      (with_filters
         [ {| field := "status"; value := VString "PENDING";
              operator := EQUALS |};
           {| field := "buyerName"; value := VString "ali";
              operator := CONTAINS |} ]
         (page_request 1 10))
      sample_state /\
  @search_meta ascii_runtime
    (with_filters
       [ {| field := "buyerName"; value := VString "ali";
            operator := CONTAINS |};
         {| field := "status"; value := VString "PENDING";
            operator := EQUALS |} ]
       (with_filters
          [ {| field := "status"; value := VString "PENDING";
               operator := EQUALS |};
            {| field := "buyerName"; value := VString "ali";
               operator := CONTAINS |} ]
          (page_request 1 10)))
    sample_state
  = @search_meta ascii_runtime
      (with_filters
         [ {| field := "status"; value := VString "PENDING";
              operator := EQUALS |};
           {| field := "buyerName"; value := VString "ali";
              operator := CONTAINS |} ]
         (page_request 1 10))
      sample_state.
Proof.
  apply (@search_filters_order_irrelevant ascii_runtime sample_state
           (with_filters
              [ {| field := "status"; value := VString "PENDING";
                   operator := EQUALS |};
                {| field := "buyerName"; value := VString "ali";
                   operator := CONTAINS |} ]
              (page_request 1 10))
           [ {| field := "status"; value := VString "PENDING";
                operator := EQUALS |};
             {| field := "buyerName"; value := VString "ali";
                operator := CONTAINS |} ]
           [ {| field := "buyerName"; value := VString "ali";
                operator := CONTAINS |};
             {| field := "status"; value := VString "PENDING";
                operator := EQUALS |} ]).
  - reflexivity.
  - apply Permutation_swap.
Defined.

Lemma search_repeatable_after_queries_witness :
  @search_data ascii_runtime (page_request 1 2)
    (@run ascii_runtime [Search (page_request 2 2); FindAll; Count]
       (@run ascii_runtime [Add 1%positive; Add 2%positive; Add 3%positive]
          (new_DataService sample_objects)))
  = @search_data ascii_runtime (page_request 1 2)
      (@run ascii_runtime [Add 1%positive; Add 2%positive; Add 3%positive]
         (new_DataService sample_objects)) /\
  @search_meta ascii_runtime (page_request 1 2)
    (@run ascii_runtime [Search (page_request 2 2); FindAll; Count]
       (@run ascii_runtime [Add 1%positive; Add 2%positive; Add 3%positive]
          (new_DataService sample_objects)))
  = @search_meta ascii_runtime (page_request 1 2)
      (@run ascii_runtime [Add 1%positive; Add 2%positive; Add 3%positive]
         (new_DataService sample_objects)).
Proof.
  apply (@search_repeatable_after_queries ascii_runtime sample_objects
           [Add 1%positive; Add 2%positive; Add 3%positive]
           [Search (page_request 2 2); FindAll; Count] (page_request 1 2)).
  repeat constructor.
Defined.

(** ** The dashboard's order search *)

Section DashboardSearch.
Context `{JSRuntime}.

Lemma searchOrders_orders (sp : Dashboard.OrderSearchFormData) (σ : State) :
  Dashboard.orders (Dashboard.searchOrders sp σ).1
  = search_data (Dashboard.searchParameters sp) σ.
Proof.
  unfold Dashboard.searchOrders, search_data, search, alloc_array. done.
Qed.


(** X14.  Every order that searchOrders puts in the table matches the form:
    its status is the selected status, its buyer name contains the typed
    buyer name and its order number contains the typed order number, both
    without regard to case; a field left empty puts no condition.  The
    table never shows more orders than the total it announces. *)
Theorem searchOrders_results_match_form
    (sp : Dashboard.OrderSearchFormData) (σ : State) :
  Forall
    (fun item =>
       item ∈ stored σ /\
       (forall s, Dashboard.status sp = Some s -> s <> "" ->
                  getField σ item "status" = VString s) /\
       (forall b, Dashboard.buyerName sp = Some b -> b <> "" ->
                  exists a pre post,
                    getField σ item "buyerName" = VString a /\
                    toLowerCase a = pre +:+ toLowerCase b +:+ post) /\
       (forall n, Dashboard.orderNumber sp = Some n -> n <> "" ->
                  exists a pre post,
                    getField σ item "orderNumber" = VString a /\
                    toLowerCase a = pre +:+ toLowerCase n +:+ post))
    (Dashboard.orders (Dashboard.searchOrders sp σ).1) /\
  Z.of_nat (length (Dashboard.orders (Dashboard.searchOrders sp σ).1))
  <= Dashboard.totalCount (Dashboard.searchOrders sp σ).1.
Proof.
  rewrite searchOrders_orders. split.
  - eapply Forall_impl; [apply search_data_candidates |].
    intros item [Hst Hcand]. split; [done |].
    unfold is_candidate in Hcand. apply andb_true_iff in Hcand as [_ Hfs].
    simpl in Hfs. rewrite forallb_forall in Hfs.
    assert (forall fld v op,
              In {| field := fld; value := VString v; operator := op |}
                 (Dashboard.filters_of sp) ->
              (op = EQUALS -> getField σ item fld = VString v) /\
              (op = CONTAINS ->
               exists a pre post,
                 getField σ item fld = VString a /\
                 toLowerCase a = pre +:+ toLowerCase v +:+ post)) as Hfilter.
    { intros fld v op Hin. specialize (Hfs _ Hin).
      unfold applyFilter in Hfs. simpl in Hfs. split; intros ->; simpl in Hfs.
      - by apply strictEquals_string.
      - destruct (getField σ item fld) as [| | | | a |]; try done.
        apply includes_spec in Hfs as (pre & post & Hfs). by exists a, pre, post. }
    assert (forall s, s <> "" -> Dashboard.truthy_string (Some s) = Some s)
      as Htruthy.
    { intros s Hs. simpl. apply String.eqb_neq in Hs. by rewrite Hs. }
    unfold Dashboard.filters_of in Hfilter.
    repeat split.
    + intros s Hs Hne. rewrite Hs, (Htruthy s Hne) in Hfilter.
      apply (Hfilter "status" s EQUALS); [| done].
      destruct (Dashboard.truthy_string (Dashboard.buyerName sp)),
        (Dashboard.truthy_string (Dashboard.orderNumber sp));
        simpl; auto.
    + intros b Hb Hne. rewrite Hb, (Htruthy b Hne) in Hfilter.
      apply (Hfilter "buyerName" b CONTAINS); [| done].
      destruct (Dashboard.truthy_string (Dashboard.status sp)),
        (Dashboard.truthy_string (Dashboard.orderNumber sp));
        simpl; auto.
    + intros n Hn Hne. rewrite Hn, (Htruthy n Hne) in Hfilter.
      apply (Hfilter "orderNumber" n CONTAINS); [| done].
      destruct (Dashboard.truthy_string (Dashboard.status sp)),
        (Dashboard.truthy_string (Dashboard.buyerName sp));
        simpl; auto.
  - unfold Dashboard.searchOrders, search, alloc_array. simpl.
    pose proof (search_data_length_le σ (Dashboard.searchParameters sp)) as Hle.
    destruct (Z.eqb_spec
                (Z.of_nat (length (filteredData σ (Dashboard.searchParameters sp))))
                0) as [Hz | Hnz]; lia.
Qed.

End DashboardSearch.

(** ** The mock API *)

(** X15.  With the users at hand, authenticateUser returns the first user
    whose e-mail address is the given one or whose mobile number is the
    given one; when no user has either, it fails with "Invalid
    credentials". *)
Theorem authenticateUser_first_match
    (usersResponse : ApiResponse.ApiResponse (list User.User))
    (users : list User.User) (email mobileNumber : string) :
  ApiResponse.success usersResponse = true ->
  ApiResponse.data usersResponse = Some users ->
  match ApiResponse.data
          (ApiService.authenticateUser usersResponse email mobileNumber) with
  | Some user =>
      ApiResponse.success
        (ApiService.authenticateUser usersResponse email mobileNumber) = true /\
      exists before after,
        users = before ++ user :: after /\
        (User.email user = email \/ User.mobileNumber user = mobileNumber) /\
        Forall (fun u => User.email u <> email /\
                         User.mobileNumber u <> mobileNumber) before
  | None =>
      ApiResponse.success
        (ApiService.authenticateUser usersResponse email mobileNumber) = false /\
      ApiResponse.error
        (ApiService.authenticateUser usersResponse email mobileNumber)
      = Some "Invalid credentials" /\
      Forall (fun u => User.email u <> email /\
                       User.mobileNumber u <> mobileNumber) users
  end.
Proof.
  intros Hok Hdata. unfold ApiService.authenticateUser, ApiService.unusable.
  rewrite Hok, Hdata. simpl.
  assert (forall u,
            String.eqb (User.email u) email
            || String.eqb (User.mobileNumber u) mobileNumber = false ->
            User.email u <> email /\ User.mobileNumber u <> mobileNumber)
    as Hno.
  { intros u Hu. apply orb_false_iff in Hu as [He Hm].
    by apply String.eqb_neq in He, Hm. }
  pose proof (find_first
                (fun u => String.eqb (User.email u) email
                          || String.eqb (User.mobileNumber u) mobileNumber)
                users) as Hfind.
  destruct (List.find _ users) as [user |]; simpl.
  - split; [done |]. destruct Hfind as (l1 & l2 & -> & Hu & Hl1).
    exists l1, l2. split; [done |]. split.
    + apply orb_true_iff in Hu as [Hu | Hu]; apply String.eqb_eq in Hu; auto.
    + eapply Forall_impl; [exact Hl1 | apply Hno].
  - repeat split. eapply Forall_impl; [exact Hfind | apply Hno].
Qed.

Lemma authenticateUser_first_match_witness :
  match ApiResponse.data
          (ApiService.authenticateUser sample_users_response
             "+12025550102" "+12025550102") with
  | Some user =>
      ApiResponse.success
        (ApiService.authenticateUser sample_users_response
           "+12025550102" "+12025550102") = true /\
      exists before after,
        [user_alice; user_bob] = before ++ user :: after /\
        (User.email user = "+12025550102" \/
         User.mobileNumber user = "+12025550102") /\
        Forall (fun u => User.email u <> "+12025550102" /\
                         User.mobileNumber u <> "+12025550102") before
  | None =>
      ApiResponse.success
        (ApiService.authenticateUser sample_users_response
           "+12025550102" "+12025550102") = false /\
      ApiResponse.error
        (ApiService.authenticateUser sample_users_response
           "+12025550102" "+12025550102")
      = Some "Invalid credentials" /\
      Forall (fun u => User.email u <> "+12025550102" /\
                       User.mobileNumber u <> "+12025550102")
        [user_alice; user_bob]
  end.
Proof.
  apply (authenticateUser_first_match sample_users_response
           [user_alice; user_bob] "+12025550102" "+12025550102");
    reflexivity.
Defined.

Lemma find_existsb {A} (p : A -> bool) (l : list A) :
  existsb p l = bool_decide (is_Some (List.find p l)).
Proof.
  induction l as [| x l IH]; simpl; [done |].
  destruct (p x); [done | apply IH].
Qed.

(** X16.  validateUserExists and authenticateUser agree: when the users are
    at hand, validateUserExists reports that a user exists exactly when
    authenticateUser succeeds for the same e-mail address and mobile number;
    when they are not, it carries no answer. *)
Theorem validateUserExists_agrees_with_authenticateUser
    (usersResponse : ApiResponse.ApiResponse (list User.User))
    (email mobileNumber : string) :
  ApiResponse.data
    (ApiService.validateUserExists usersResponse email mobileNumber)
  = if ApiService.unusable usersResponse then None
    else Some (ApiResponse.success
                 (ApiService.authenticateUser usersResponse email mobileNumber)).
Proof.
  unfold ApiService.validateUserExists, ApiService.authenticateUser.
  destruct (ApiService.unusable usersResponse); [done |]. simpl.
  rewrite find_existsb. by destruct (List.find _ _).
Qed.

(** X17.  The login form that reads the fixture succeeds exactly when some
    user has the username as e-mail address or mobile number and the
    password is not empty.  It never looks at what the password is: two
    submissions with the same username and any two non-empty passwords get
    the same response. *)
Theorem login_accepts_any_password (users : list User.User)
    (c : LoginForm.LoginFormData) :
  (ApiResponse.success (LoginForm.authenticateUser_fixture (Some users) c)
   = true <->
   Exists (fun u => User.email u = LoginForm.username c \/
                    User.mobileNumber u = LoginForm.username c) users /\
   LoginForm.password c <> "") /\
  (forall c' : LoginForm.LoginFormData,
     LoginForm.username c' = LoginForm.username c ->
     LoginForm.password c <> "" -> LoginForm.password c' <> "" ->
     LoginForm.authenticateUser_fixture (Some users) c'
     = LoginForm.authenticateUser_fixture (Some users) c).
Proof.
  split.
  - unfold LoginForm.authenticateUser_fixture.
    pose proof (find_first
                  (fun user =>
                     String.eqb (User.email user) (LoginForm.username c)
                     || String.eqb (User.mobileNumber user)
                          (LoginForm.username c))
                  users) as Hfind.
    destruct (List.find _ users) as [user |].
    + destruct Hfind as (l1 & l2 & -> & Hu & _).
      assert (Exists (fun u => User.email u = LoginForm.username c \/
                               User.mobileNumber u = LoginForm.username c)
                (l1 ++ user :: l2)) as Hex.
      { apply Exists_exists. exists user. split.
        - apply elem_of_app. right. by left.
        - apply orb_true_iff in Hu as [Hu | Hu]; apply String.eqb_eq in Hu; auto. }
      destruct (String.eqb_spec (LoginForm.password c) "") as [Hp | Hp]; simpl.
      * split; [done | by intros [_ ?]].
      * by split.
    + simpl. split; [done |]. intros [Hex _].
      apply Exists_exists in Hex as (u & Hin & Hu).
      rewrite Forall_forall in Hfind. specialize (Hfind u Hin). simpl in Hfind.
      apply orb_false_iff in Hfind as [He Hm].
      apply String.eqb_neq in He, Hm. by destruct Hu.
  - intros c' Hu Hp Hp'. unfold LoginForm.authenticateUser_fixture.
    apply String.eqb_neq in Hp, Hp'. by rewrite Hu, Hp, Hp'.
Qed.




Example getRecentLoginRecords_sample :
  ApiResponse.data
    (ApiService.getRecentLoginRecords sample_records_response (Some 2))
  = Some [login_record "l-2" 300; login_record "l-3" 200].
Proof. by vm_compute. Qed.

(** ** The validation schemas *)

Section ValidatedSearch.
Context `{JSRuntime}.


End ValidatedSearch.


Lemma is_digit_not_space (c : ascii) :
  is_digit c = true -> Validation.is_space c = false.
Proof.
  unfold is_digit, Validation.is_space.
  rewrite andb_true_iff, !Nat.leb_le.
  rewrite !orb_false_iff, andb_false_iff, !Nat.leb_gt, !Nat.eqb_neq. lia.
Qed.

Lemma is_digit_1_9_not_space (c : ascii) :
  Validation.is_digit_1_9 c = true -> Validation.is_space c = false.
Proof.
  unfold Validation.is_digit_1_9, Validation.is_space.
  rewrite andb_true_iff, !Nat.leb_le.
  rewrite !orb_false_iff, andb_false_iff, !Nat.leb_gt, !Nat.eqb_neq. lia.
Qed.

Lemma strip_plus_other (d : ascii) (digits : string) :
  d <> "+"%char -> Validation.strip_plus (String d digits) = String d digits.
Proof. intros Hd. destruct d as [[] [] [] [] [] [] [] []]; done. Qed.

(** X20.  The registration form accepts a mobile number exactly when it is
    an optional plus sign followed by a digit other than 0 and further
    digits, 10 to 15 characters in all: 10 to 15 digits without the plus
    sign, 9 to 14 digits with it. *)
Theorem registration_mobileNumber_shape (s : string) :
  Validation.registration_mobileNumber s = true <->
  exists (sign : string) (d : ascii) (digits : string),
    s = sign +:+ String d digits /\
    (sign = "" \/ sign = "+") /\
    Validation.is_digit_1_9 d = true /\
    forallb is_digit (list_ascii_of_string digits) = true /\
    (10 <= String.length sign + 1 + String.length digits <= 15)%nat.
Proof.
  unfold Validation.registration_mobileNumber, Validation.mobileRegex_test.
  split.
  - intros Hvalid.
    apply andb_true_iff in Hvalid as [Hvalid Hmax%Nat.leb_le].
    apply andb_true_iff in Hvalid as [Hre Hmin%Nat.leb_le].
    assert (exists sign rest,
              s = sign +:+ rest /\ (sign = "" \/ sign = "+") /\
              match rest with
              | String d digits =>
                  Validation.is_digit_1_9 d
                  && (1 <=? String.length digits)%nat
                  && (String.length digits <=? 14)%nat
                  && forallb is_digit (list_ascii_of_string digits)
              | EmptyString => false
              end = true) as (sign & rest & Hs & Hsign & Hrest).
    { destruct s as [| c s']; [done |].
      destruct (Ascii.eqb_spec c "+") as [-> | Hc].
      - exists "+", s'. by auto.
      - exists "", (String c s'). rewrite strip_plus_other in Hre by done.
        by auto. }
    destruct rest as [| d digits]; [done |].
    rewrite !andb_true_iff in Hrest. destruct Hrest as [[[Hd _] _] Hds].
    exists sign, d, digits. repeat split; try done.
    all: rewrite Hs, String_length_app in Hmin, Hmax;
      cbn [String.length] in *; lia.
  - intros (sign & d & digits & -> & Hsign & Hd & Hds & Hlen).
    assert (Validation.is_digit_1_9 d
            && (1 <=? String.length digits)%nat
            && (String.length digits <=? 14)%nat
            && forallb is_digit (list_ascii_of_string digits) = true) as Hbody.
    { rewrite Hd, Hds.
      destruct Hsign as [-> | ->]; cbn [String.length] in Hlen;
        rewrite !andb_true_iff, !Nat.leb_le; repeat split; lia. }
    rewrite String_length_app.
    destruct Hsign as [-> | ->].
    + assert (d <> "+"%char) as Hplus.
      { intros ->. by vm_compute in Hd. }
      change ("" +:+ String d digits) with (String d digits).
      rewrite strip_plus_other by done. rewrite Hbody.
      rewrite !andb_true_iff, !Nat.leb_le. cbn [String.length] in *.
      repeat split; lia.
    + change ("+" +:+ String d digits) with (String "+" (String d digits)).
      change (Validation.strip_plus (String "+" (String d digits)))
        with (String d digits).
      cbv beta iota. rewrite Hbody.
      rewrite !andb_true_iff, !Nat.leb_le. cbn [String.length] in *.
      repeat split; lia.
Qed.

Lemma split_at_first_spec (c : ascii) (s a b : string) :
  Validation.split_at_first c s = Some (a, b) -> s = a +:+ String c b.
Proof.
  revert a. induction s as [| d s IH]; intros a; simpl; [done |].
  destruct (Ascii.eqb_spec d c) as [-> | Hd].
  - by intros [= <- <-].
  - destruct (Validation.split_at_first c s) as [[a' b'] |]; [| done].
    intros [= <- <-].
    change (String d s = String d (a' +:+ String c b')).
    f_equal. by apply IH.
Qed.

Lemma list_ascii_of_string_app (a b : string) :
  list_ascii_of_string (a +:+ b)
  = list_ascii_of_string a ++ list_ascii_of_string b.
Proof. induction a as [| c a IH]; simpl; [done | by rewrite IH]. Qed.

Lemma forallb_weaken {A} (p q : A -> bool) (l : list A) :
  (forall x, p x = true -> q x = true) ->
  forallb p l = true -> forallb q l = true.
Proof.
  intros Hpq. rewrite !forallb_forall. auto.
Qed.

(** X21.  A mobile number that the registration form accepts is accepted as
    username by the login form; and a username that the login form accepts
    is not empty and has no white space in it, so a username typed with a
    space before or after it is refused. *)
Theorem login_username_accepted :
  (forall s : string,
     Validation.registration_mobileNumber s = true ->
     Validation.login_username s = true) /\
  (forall value : string,
     Validation.login_username value = true ->
     value <> "" /\
     forallb (fun c => negb (Validation.is_space c))
       (list_ascii_of_string value) = true).
Proof.
  split.
  - intros s Hs. unfold Validation.registration_mobileNumber in Hs.
    apply andb_true_iff in Hs as [Hs _].
    apply andb_true_iff in Hs as [Hre Hmin%Nat.leb_le].
    unfold Validation.login_username. rewrite Hre, orb_true_r, andb_true_r.
    apply Nat.leb_le. lia.
  - intros value Hv. unfold Validation.login_username in Hv.
    apply andb_true_iff in Hv as [Hlen%Nat.leb_le Hv].
    split; [by intros -> |].
    apply orb_true_iff in Hv as [Hemail | Hmobile].
    + unfold Validation.emailRegex_test in Hemail.
      destruct (Validation.split_at_first "@" value) as [[a b] |] eqn:Hsplit;
        [| done].
      apply split_at_first_spec in Hsplit as ->.
      rewrite !andb_true_iff in Hemail. destruct Hemail as [[[_ Ha] Hb] _].
      rewrite list_ascii_of_string_app, forallb_app.
      apply andb_true_iff. split; [| simpl].
      all: eapply forallb_weaken; [| eassumption].
      all: intros c Hc; unfold Validation.is_email_char in Hc.
      all: by apply andb_true_iff in Hc as [? _].
    + unfold Validation.mobileRegex_test in Hmobile.
      assert (forall rest,
                match rest with
                | String d digits =>
                    Validation.is_digit_1_9 d
                    && (1 <=? String.length digits)%nat
                    && (String.length digits <=? 14)%nat
                    && forallb is_digit (list_ascii_of_string digits)
                | EmptyString => false
                end = true ->
                forallb (fun c => negb (Validation.is_space c))
                  (list_ascii_of_string rest) = true) as Hrest.
      { intros [| d digits] Hr; [done |].
        rewrite !andb_true_iff in Hr. destruct Hr as [[[Hd _] _] Hds].
        simpl. rewrite (is_digit_1_9_not_space d Hd). simpl.
        eapply forallb_weaken; [| exact Hds].
        intros c Hc. by rewrite (is_digit_not_space c Hc). }
      destruct value as [| c s']; [done |].
      destruct (Ascii.eqb_spec c "+") as [-> | Hc].
      * simpl. by apply Hrest.
      * rewrite strip_plus_other in Hmobile by done. by apply Hrest.
Qed.

(** X22.  The two login forms agree on who gets in: with the users at hand
    and a password that is not empty, the form that calls the API and the
    form that reads the fixture succeed for the same usernames and return
    the same authenticated user. *)
Theorem login_forms_agree
    (usersResponse : ApiResponse.ApiResponse (list User.User))
    (users : list User.User) (c : LoginForm.LoginFormData) :
  ApiResponse.success usersResponse = true ->
  ApiResponse.data usersResponse = Some users ->
  LoginForm.password c <> "" ->
  ApiResponse.success (LoginForm.authenticateUser usersResponse c)
  = ApiResponse.success (LoginForm.authenticateUser_fixture (Some users) c) /\
  ApiResponse.data (LoginForm.authenticateUser usersResponse c)
  = ApiResponse.data (LoginForm.authenticateUser_fixture (Some users) c).
Proof.
  intros Hok Hdata Hp. apply String.eqb_neq in Hp.
  unfold LoginForm.authenticateUser, LoginForm.authenticateUser_fixture,
    ApiService.authenticateUser, ApiService.unusable.
  rewrite Hok, Hdata, Hp. simpl.
  by destruct (List.find _ users).
Qed.

Lemma login_forms_agree_witness :
  ApiResponse.success
    (LoginForm.authenticateUser sample_users_response
       {| LoginForm.username := "bob@example.com";
          LoginForm.password := "x" |})
  = ApiResponse.success
      (LoginForm.authenticateUser_fixture (Some [user_alice; user_bob])
         {| LoginForm.username := "bob@example.com";
            LoginForm.password := "x" |}) /\
  ApiResponse.data
    (LoginForm.authenticateUser sample_users_response
       {| LoginForm.username := "bob@example.com";
          LoginForm.password := "x" |})
  = ApiResponse.data
      (LoginForm.authenticateUser_fixture (Some [user_alice; user_bob])
         {| LoginForm.username := "bob@example.com";
            LoginForm.password := "x" |}).
Proof.
  apply (login_forms_agree sample_users_response [user_alice; user_bob]
           {| LoginForm.username := "bob@example.com";
              LoginForm.password := "x" |});
    [reflexivity | reflexivity | discriminate].
Defined.
